(** * visualize_string_frequencies.py: a shallow embedding

    The script loads a table of string-frequency observations and runs
    four report generators over it.  The table is a list of rows; the
    pandas operations the script uses (boolean indexing, [unique],
    [groupby], [nlargest], [nsmallest], [pivot_table]) are written out
    as list functions that follow their documented behaviour on columns
    without missing values. *)

From Stdlib Require Import Strings.String Strings.Ascii.
From Stdlib Require Import ZArith QArith List Bool Lia.
From Stdlib Require Import Sorting.Permutation Sorting.Sorted.
Import ListNotations.

Local Open Scope Z_scope.

(** ** Data model *)

(** One observation row of the input table (the CSV columns read by the
    script).  [time_sec] is a float in the source; it is only carried
    around and compared, and is modelled by a rational. *)
Record Row : Type := mkRow {
  iteration : Z;
  str : string;
  frequency : Z;
  rank : Z;
  unique_strings : Z;
  total_extracted : Z;
  elite_size : Z;
  time_sec : Q
}.

(** The loaded table: the rows in file order. *)
Definition DataFrame : Type := list Row.

(** ** List counterparts of the Python and pandas primitives *)

Section ListPrimitives.
Context {A : Type}.

(** Stable sort by a boolean order: [insert_by] puts [x] in front of the
    first element it is not above, so equal keys keep their order. *)
Fixpoint insert_by (leb : A -> A -> bool) (x : A) (l : list A) : list A :=
  match l with
  | [] => [x]
  | y :: t => if leb x y then x :: y :: t else y :: insert_by leb x t
  end.

Fixpoint sort_by (leb : A -> A -> bool) (l : list A) : list A :=
  match l with
  | [] => []
  | x :: t => insert_by leb x (sort_by leb t)
  end.

(** [Series.unique()]: the distinct values in order of first appearance. *)
Fixpoint unique_from (eqb : A -> A -> bool) (seen l : list A) : list A :=
  match l with
  | [] => []
  | x :: t =>
      if existsb (eqb x) seen then unique_from eqb seen t
      else x :: unique_from eqb (x :: seen) t
  end.

Definition unique (eqb : A -> A -> bool) (l : list A) : list A :=
  unique_from eqb [] l.

(** The extended slice [l[::step]]: positions 0, step, 2*step, ...
    [skip] is the number of elements to pass over before the next pick. *)
Fixpoint slice_from (skip step : nat) (l : list A) : list A :=
  match l with
  | [] => []
  | x :: t =>
      match skip with
      | O => x :: slice_from (step - 1) step t
      | S k => slice_from k step t
      end
  end.

Definition slice_step (step : nat) (l : list A) : list A :=
  slice_from 0 step l.

(** [.iloc[0]]: the first element, an IndexError on an empty selection. *)
Definition iloc0 (l : list A) : option A := hd_error l.
End ListPrimitives.

(** [sorted(...)] on integers and on strings (lexicographic by character
    code, as Python compares [str]). *)
Definition sorted_Z (l : list Z) : list Z := sort_by Z.leb l.
Definition sorted_str (l : list string) : list string := sort_by String.leb l.

(** [Series.max()]: [None] stands for the NaN pandas gives on no values. *)
Definition col_max (l : list Z) : option Z :=
  match l with
  | [] => None
  | x :: t => Some (fold_left Z.max t x)
  end.

(** [Series.min()]. *)
Definition col_min (l : list Z) : option Z :=
  match l with
  | [] => None
  | x :: t => Some (fold_left Z.min t x)
  end.

(** [Series.sum()]. *)
Definition col_sum (l : list Z) : Z := fold_left Z.add l 0.

(** [Series.nunique()]. *)
Definition nunique_Z (l : list Z) : nat := length (unique Z.eqb l).
Definition nunique_str (l : list string) : nat := length (unique String.eqb l).

(** [df[df['iteration'] == it]] and [df[df['string'] == s]]. *)
Definition rows_at (it : Z) (df : DataFrame) : DataFrame :=
  filter (fun r => iteration r =? it) df.

Definition rows_of (s : string) (df : DataFrame) : DataFrame :=
  filter (fun r => String.eqb (str r) s) df.

(** [df[df['string'].isin(keys)]]. *)
Definition isin (keys : list string) (df : DataFrame) : DataFrame :=
  filter (fun r => existsb (String.eqb (str r)) keys) df.

(** The group keys of [df.groupby('string')]: distinct, sorted. *)
Definition group_keys (df : DataFrame) : list string :=
  sorted_str (unique String.eqb (map str df)).

(** [df.groupby('string')['frequency'].max()]: one entry per key, in key
    order.  A group is never empty; the [None] branch mirrors the NaN that
    [nlargest] would drop. *)
Definition groupby_max (df : DataFrame) : list (string * Z) :=
  flat_map
    (fun k => match col_max (map frequency (rows_of k df)) with
              | Some m => [(k, m)]
              | None => []
              end)
    (group_keys df).

(** [df.groupby('string')['iteration'].count()]: rows per key. *)
Definition groupby_count (df : DataFrame) : list (string * nat) :=
  map (fun k => (k, length (rows_of k df))) (group_keys df).

(** [Series.nlargest(n)], keep='first': nothing for [n <= 0], otherwise the
    first [n] entries of the series sorted by descending value, ties in
    series order.  (When [n] covers the whole series pandas leaves the order
    among equal values to its sort; nothing below depends on that order.) *)
Definition by_value_desc (a b : string * Z) : bool := snd b <=? snd a.

Definition nlargest (n : Z) (s : list (string * Z)) : list (string * Z) :=
  if n <=? 0 then [] else firstn (Z.to_nat n) (sort_by by_value_desc s).

(** [DataFrame.nsmallest(n, 'rank')], keep='first'. *)
Definition by_rank_asc (a b : Row) : bool := rank a <=? rank b.

Definition nsmallest_rank (n : Z) (df : DataFrame) : DataFrame :=
  if n <=? 0 then [] else firstn (Z.to_nat n) (sort_by by_rank_asc df).

(** ** Top-N selection (create_heatmap lines 39-40, create_rank_evolution
    lines 176-177) *)

Definition top_strings (df : DataFrame) (top_n : Z) : list string :=
  map fst (nlargest top_n (groupby_max df)).

(** ** create_histogram: the sampled iterations (lines 100-108) *)

Definition iterations (df : DataFrame) : list Z :=
  sorted_Z (unique Z.eqb (map iteration df)).

Definition step (df : DataFrame) : nat :=
  Nat.max 1 (length (iterations df) / 12).

Definition selected_iterations (df : DataFrame) : list Z :=
  slice_step (step df) (iterations df).

Definition n_plots (df : DataFrame) : nat := length (selected_iterations df).
Definition n_cols (df : DataFrame) : nat := Nat.min 4 (n_plots df).

(** [x.iloc[0] if len(data) > 0 else dflt], as the stats of a histogram
    panel are read (lines 129-131).  [None] is the IndexError of [.iloc[0]]
    on an empty selection. *)
Definition first_or {B : Type} (col : Row -> B) (dflt : B) (data : DataFrame)
  : option B :=
  if (0 <? length data)%nat then option_map col (iloc0 data) else Some dflt.

(** What one subplot shows. *)
Record Panel : Type := mkPanel {
  p_iteration : Z;
  p_frequencies : list Z;
  p_unique_strings : Z;
  p_total_extracted : Z;
  p_time_sec : Q
}.

Definition panel_of (it : Z) (iter_data : DataFrame) : option Panel :=
  match first_or unique_strings 0 iter_data,
        first_or total_extracted 0 iter_data,
        first_or time_sec 0%Q iter_data with
  | Some u, Some t, Some s =>
      Some (mkPanel it (map frequency iter_data) u t s)
  | _, _, _ => None
  end.

Definition panel (df : DataFrame) (it : Z) : option Panel :=
  panel_of it (rows_at it df).

(** Line 108: [(n_plots + n_cols - 1) // n_cols], a ZeroDivisionError when
    nothing was sampled. *)
Definition floor_div (a b : nat) : option nat :=
  match b with
  | O => None
  | S _ => Some (a / b)%nat
  end.

Definition n_rows (df : DataFrame) : option nat :=
  floor_div (n_plots df + n_cols df - 1) (n_cols df).

(** ** create_heatmap: the pivot matrix (lines 43-54) *)

(** [pivot_table] aggregates with its default, the mean. *)
Definition mean (l : list Z) : option Q :=
  match l with
  | [] => None
  | _ :: _ => Some (inject_Z (col_sum l) / inject_Z (Z.of_nat (length l)))%Q
  end.

(** The rows of the table with a given (string, iteration) pair. *)
Definition cell_rows (s : string) (it : Z) (df : DataFrame) : DataFrame :=
  filter (fun r => String.eqb (str r) s && (iteration r =? it)) df.

(** A cell of the pivot: the mean of the pair's frequencies, [fill_value=0]
    where the pair has no row. *)
Definition pivot_cell (df : DataFrame) (s : string) (it : Z) : Q :=
  match mean (map frequency (cell_rows s it df)) with
  | Some m => m
  | None => 0%Q
  end.

(** The matrix: the column labels and, per index label, the row of cells. *)
Record Pivot : Type := mkPivot {
  pv_columns : list Z;
  pv_rows : list (string * list Q)
}.

Definition pv_index (pv : Pivot) : list string := map fst (pv_rows pv).

Definition pivot_table (df : DataFrame) : Pivot :=
  let index := sorted_str (unique String.eqb (map str df)) in
  let columns := sorted_Z (unique Z.eqb (map iteration df)) in
  mkPivot columns (map (fun s => (s, map (pivot_cell df s) columns)) index).

(** [pivot.max(axis=1)] of one row; [None] for a row without columns. *)
Definition q_max (a b : Q) : Q := if Qle_bool a b then b else a.

Definition row_max (cells : list Q) : option Q :=
  match cells with
  | [] => None
  | x :: t => Some (fold_left q_max t x)
  end.

(** Descending by row maximum, rows without a maximum last. *)
Definition by_row_max_desc (a b : string * list Q) : bool :=
  match row_max (snd a), row_max (snd b) with
  | Some x, Some y => Qle_bool y x
  | Some _, None => true
  | None, Some _ => false
  | None, None => true
  end.

(** [pivot.loc[pivot.max(axis=1).sort_values(ascending=False).index]];
    rows with equal maxima are kept in index order here. *)
Definition sort_rows_by_max (pv : Pivot) : Pivot :=
  mkPivot (pv_columns pv) (sort_by by_row_max_desc (pv_rows pv)).

Definition heatmap_pivot (df : DataFrame) (top_n : Z) : Pivot :=
  let df_top := isin (top_strings df top_n) df in
  sort_rows_by_max (pivot_table df_top).



(** ** create_rank_evolution: one line per top string (lines 176-191) *)

Definition by_iteration_asc (a b : Row) : bool := iteration a <=? iteration b.

Definition rank_line (df_top : DataFrame) (s : string) : string * list (Z * Z) :=
  let string_data := sort_by by_iteration_asc (rows_of s df_top) in
  (s, map (fun r => (iteration r, rank r)) string_data).

Definition rank_lines (df : DataFrame) (top_n : Z) : list (string * list (Z * Z)) :=
  let ts := top_strings df top_n in
  map (rank_line (isin ts df)) ts.

(** ** create_summary_stats (lines 230-275) *)

Definition final_iter (df : DataFrame) : option Z := col_max (map iteration df).

(** [df[df['iteration'] == final_iter]]; nothing compares equal to the NaN
    of an empty table. *)
Definition final_data (df : DataFrame) : DataFrame :=
  match final_iter df with
  | Some m => rows_at m df
  | None => []
  end.

Definition top20 (df : DataFrame) : DataFrame := nsmallest_rank 20 (final_data df).

Definition total_freq (df : DataFrame) : Z :=
  if (0 <? length (final_data df))%nat
  then col_sum (map frequency (final_data df))
  else 1.

(** True division: no result on a zero divisor. *)
Definition true_div (a b : Z) : option Q :=
  if b =? 0 then None else Some (inject_Z a / inject_Z b)%Q.

(** Line 257: [(row['frequency'] / total_freq * 100) if total_freq > 0 else 0]. *)
Definition pct (df : DataFrame) (row : Row) : option Q :=
  if total_freq df >? 0
  then option_map (fun q => (q * 100)%Q) (true_div (frequency row) (total_freq df))
  else Some 0%Q.

(** Lines 265-267. *)
Definition string_appearances (df : DataFrame) : list (string * nat) :=
  groupby_count df.

Definition max_appearances (df : DataFrame) : nat := nunique_Z (map iteration df).

Definition persistent_strings (df : DataFrame) : list (string * nat) :=
  filter (fun kc => Nat.eqb (snd kc) (max_appearances df)) (string_appearances df).

Definition persistent_final (df : DataFrame) : DataFrame :=
  nsmallest_rank 10 (isin (map fst (persistent_strings df)) (final_data df)).

(** ** Output artifacts *)

Record SummaryRow : Type := mkSummaryRow {
  sr_rank : Z;
  sr_string : string;
  sr_frequency : Z;
  sr_pct : Q
}.

(** The content of summary_stats.txt, field by field in the order written. *)
Record Summary : Type := mkSummary {
  s_total_iterations : option Z;
  s_total_snapshots : nat;
  s_unique_strings : nat;
  s_time_max : option Q;
  s_final_iter : option Z;
  s_final_stats : option (Z * Z * Z);
  s_top20 : list SummaryRow;
  s_max_appearances : nat;
  s_persistent_count : nat;
  s_persistent_top10 : list (string * Z * Z)
}.

Inductive Artifact : Type :=
| HeatmapFig (top_n : Z) (pv : Pivot)
| HistogramFig (rows cols : nat) (panels : list Panel)
| RankFig (top_n : Z) (lines : list (string * list (Z * Z)))
| SummaryTxt (s : Summary).

(** ** Effects: objects, printing, files, exceptions *)

Inductive exn : Type :=
| ZeroDivisionError
| IndexError
| ParserError
| IOError
| ReferenceError.

Inductive Outcome (A : Type) : Type :=
| Ok (a : A)
| Raise (e : exn)
| SysExit (code : Z).
Arguments Ok {A} a.
Arguments Raise {A} e.
Arguments SysExit {A} code.

(** A printed line: fixed text, or a label with the numbers formatted in. *)
Inductive Line : Type :=
| Text (s : string)
| Info (label : string) (values : list (option Z)).

(** The DataFrame objects alive (a reference is a position in [heap]), what
    was printed, and the files written, all in order. *)
Record State : Type := mkState {
  heap : list DataFrame;
  stdout : list Line;
  files : list (string * Artifact)
}.

Definition init : State := mkState [] [] [].

Definition ref : Type := nat.

Definition M (A : Type) : Type := State -> Outcome A * State.

Definition ret {A : Type} (a : A) : M A := fun st => (Ok a, st).

Definition bind {A B : Type} (m : M A) (k : A -> M B) : M B :=
  fun st =>
    match m st with
    | (Ok a, st') => k a st'
    | (Raise e, st') => (Raise e, st')
    | (SysExit c, st') => (SysExit c, st')
    end.

Declare Scope monad_scope.
Delimit Scope monad_scope with monad.
Notation "x <- m ;; k" := (bind m (fun x => k))
  (at level 61, m at next level, right associativity) : monad_scope.
Notation "m ;; k" := (bind m (fun _ => k))
  (at level 61, right associativity) : monad_scope.
Local Open Scope monad_scope.

Definition raise {A : Type} (e : exn) : M A := fun st => (Raise e, st).

(** [sys.exit(code)]. *)
Definition sys_exit {A : Type} (code : Z) : M A := fun st => (SysExit code, st).

Definition print (l : Line) : M unit :=
  fun st => (Ok tt, mkState (heap st) (stdout st ++ [l]) (files st)).

(** A pandas operation that returns a new object. *)
Definition alloc (d : DataFrame) : M ref :=
  fun st => (Ok (length (heap st)), mkState (heap st ++ [d]) (stdout st) (files st)).

Definition deref (l : ref) : M DataFrame :=
  fun st =>
    match nth_error (heap st) l with
    | Some d => (Ok d, st)
    | None => (Raise ReferenceError, st)
    end.

(** [.copy()]. *)
Definition copy (l : ref) : M ref := (d <- deref l ;; alloc d).

Definition or_raise {A : Type} (e : exn) (o : option A) : M A :=
  match o with
  | Some a => ret a
  | None => raise e
  end.

Fixpoint mapM {A B : Type} (f : A -> M B) (l : list A) : M (list B) :=
  match l with
  | [] => ret []
  | x :: t => (y <- f x ;; ys <- mapM f t ;; ret (y :: ys))
  end.

(** The process exit status: 0 on normal completion, the argument of
    [sys.exit], 1 after an uncaught exception. *)
Definition exit_code {A : Type} (o : Outcome A) : Z :=
  match o with
  | Ok _ => 0
  | Raise _ => 1
  | SysExit c => c
  end.

(** [os.path.dirname] and [os.path.join] (POSIX). *)
Fixpoint upto_last_slash (p : string) : option string :=
  match p with
  | EmptyString => None
  | String c t =>
      match upto_last_slash t with
      | Some h => Some (String c h)
      | None => if Ascii.eqb c "/" then Some (String c EmptyString) else None
      end
  end.

Fixpoint all_slashes (p : string) : bool :=
  match p with
  | EmptyString => true
  | String c t => Ascii.eqb c "/" && all_slashes t
  end.

Fixpoint rstrip_slash (p : string) : string :=
  match p with
  | EmptyString => EmptyString
  | String c t =>
      match rstrip_slash t with
      | EmptyString => if Ascii.eqb c "/" then EmptyString else String c EmptyString
      | t' => String c t'
      end
  end.

Definition dirname (p : string) : string :=
  match upto_last_slash p with
  | None => EmptyString
  | Some h => if all_slashes h then h else rstrip_slash h
  end.

Fixpoint ends_with_slash (p : string) : bool :=
  match p with
  | EmptyString => false
  | String c EmptyString => Ascii.eqb c "/"
  | String _ t => ends_with_slash t
  end.

Definition path_join (a b : string) : string :=
  match a with
  | EmptyString => b
  | _ => if ends_with_slash a then (a ++ b)%string else (a ++ "/" ++ b)%string
  end.

(** ** The program *)

(** What the run depends on outside the script: the file system, the CSV
    reader, and whether rendering or writing an output fails. *)
Record World : Type := mkWorld {
  path_exists : string -> bool;
  read_csv : string -> exn + DataFrame;
  write_error : string -> Artifact -> option exn
}.

Definition of_nat (n : nat) : option Z := Some (Z.of_nat n).

Section Program.
Variable w : World.

(** [plt.savefig(output_file)] and the [with open(output_file, 'w')]
    block, taken as one write at its end: the artifact is on disk unless
    the write fails. *)
Definition write_file (name : string) (a : Artifact) : M unit :=
  fun st =>
    match write_error w name a with
    | Some e => (Raise e, st)
    | None => (Ok tt, mkState (heap st) (stdout st) (files st ++ [(name, a)]))
    end.

Definition load_data (csv_file : string) : M ref :=
  print (Text ("Loading data from: " ++ csv_file)) ;;
  match read_csv w csv_file with
  | inl e => raise e
  | inr d =>
      df <- alloc d ;;
      print (Info "Loaded rows" [of_nat (length d)]) ;;
      print (Info "Iterations"
               [col_min (map iteration d); col_max (map iteration d)]) ;;
      print (Info "Unique strings" [of_nat (nunique_str (map str d))]) ;;
      ret df
  end.

Definition create_heatmap (df : ref) (output_dir : string) (top_n : Z) : M unit :=
  print (Info "Creating heatmap for top strings" [Some top_n]) ;;
  d <- deref df ;;
  let top_strings := top_strings d top_n in
  sel <- alloc (isin top_strings d) ;;
  df_top <- copy sel ;;
  dt <- deref df_top ;;
  let pivot := sort_rows_by_max (pivot_table dt) in
  let output_file := path_join output_dir "heatmap_top_strings.png" in
  write_file output_file (HeatmapFig top_n pivot) ;;
  print (Text ("Saved heatmap: " ++ output_file)).

Definition create_histogram (df : ref) (output_dir : string) : M unit :=
  print (Text "Creating frequency distribution histograms...") ;;
  d <- deref df ;;
  let selected_iterations := selected_iterations d in
  let n_plots := length selected_iterations in
  let n_cols := Nat.min 4 n_plots in
  n_rows <- or_raise ZeroDivisionError (floor_div (n_plots + n_cols - 1) n_cols) ;;
  panels <- mapM (fun it =>
                    iter_data <- alloc (rows_at it d) ;;
                    data <- deref iter_data ;;
                    or_raise IndexError (panel_of it data))
                 selected_iterations ;;
  let output_file := path_join output_dir "histogram_frequency_distribution.png" in
  write_file output_file (HistogramFig n_rows n_cols panels) ;;
  print (Text ("Saved histogram: " ++ output_file)).

Definition create_rank_evolution (df : ref) (output_dir : string) (top_n : Z) : M unit :=
  print (Info "Creating rank evolution plot for top strings" [Some top_n]) ;;
  d <- deref df ;;
  let top_strings := top_strings d top_n in
  sel <- alloc (isin top_strings d) ;;
  df_top <- copy sel ;;
  dt <- deref df_top ;;
  lines <- mapM (fun s =>
                   sel_s <- alloc (rows_of s dt) ;;
                   ds <- deref sel_s ;;
                   string_data <- alloc (sort_by by_iteration_asc ds) ;;
                   sd <- deref string_data ;;
                   ret (s, map (fun r => (iteration r, rank r)) sd))
                top_strings ;;
  let output_file := path_join output_dir "rank_evolution.png" in
  write_file output_file (RankFig top_n lines) ;;
  print (Text ("Saved rank evolution: " ++ output_file)).

Definition summary_row (d : DataFrame) (row : Row) : M SummaryRow :=
  p <- or_raise ZeroDivisionError (pct d row) ;;
  ret (mkSummaryRow (rank row) (str row) (frequency row) p).

Definition create_summary_stats (df : ref) (output_dir : string) : M unit :=
  print (Text "Generating summary statistics...") ;;
  let output_file := path_join output_dir "summary_stats.txt" in
  d <- deref df ;;
  final <- alloc (final_data d) ;;
  fd <- deref final ;;
  stats <- (if (0 <? length fd)%nat
            then r <- or_raise IndexError (iloc0 fd) ;;
                 ret (Some (unique_strings r, total_extracted r, elite_size r))
            else ret None) ;;
  t20 <- alloc (nsmallest_rank 20 fd) ;;
  top20 <- deref t20 ;;
  rows <- mapM (summary_row d) top20 ;;
  let persistent := persistent_strings d in
  top10 <- (if (0 <? length persistent)%nat
            then sel <- alloc (isin (map fst persistent) fd) ;;
                 ds <- deref sel ;;
                 pf <- alloc (nsmallest_rank 10 ds) ;;
                 dp <- deref pf ;;
                 ret (map (fun r => (str r, frequency r, rank r)) dp)
            else ret []) ;;
  write_file output_file
    (SummaryTxt
       (mkSummary (col_max (map iteration d))
                  (nunique_Z (map iteration d))
                  (nunique_str (map str d))
                  (row_max (map time_sec d))
                  (final_iter d)
                  stats rows
                  (max_appearances d)
                  (length persistent)
                  top10)) ;;
  print (Text ("Saved summary: " ++ output_file)).

Definition usage : Line :=
  Text "Usage: python visualize_string_frequencies.py <csv_file>".

Definition file_not_found (csv_file : string) : Line :=
  Text ("Error: File not found: " ++ csv_file).

Definition main (argv : list string) : M unit :=
  if (length argv <? 2)%nat then
    print usage ;;
    print (Text "Example: python visualize_string_frequencies.py logs/string_freq_X-n101-k25_20260103_120000.csv") ;;
    sys_exit 1
  else
    let csv_file := nth 1 argv EmptyString in
    if negb (path_exists w csv_file) then
      print (file_not_found csv_file) ;;
      sys_exit 1
    else
      let output_dir :=
        match dirname csv_file with
        | EmptyString => "."%string
        | dir => dir
        end in
      print (Text "STRING FREQUENCY VISUALIZATION") ;;
      df <- load_data csv_file ;;
      create_heatmap df output_dir 30 ;;
      create_histogram df output_dir ;;
      create_rank_evolution df output_dir 15 ;;
      create_summary_stats df output_dir ;;
      print (Text "VISUALIZATION COMPLETE!") ;;
      print (Text ("Output files saved in: " ++ output_dir ++ "/")) ;;
      print (Text "Done!").
End Program.

(** The four report generators, as [main] calls them. *)
Inductive Generator : Type :=
| Heatmap (top_n : Z)
| Histogram
| RankEvolution (top_n : Z)
| SummaryStats.

Definition run_generator (w : World) (g : Generator) (df : ref) (output_dir : string)
  : M unit :=
  match g with
  | Heatmap top_n => create_heatmap w df output_dir top_n
  | Histogram => create_histogram w df output_dir
  | RankEvolution top_n => create_rank_evolution w df output_dir top_n
  | SummaryStats => create_summary_stats w df output_dir
  end.

(** [main]'s generator calls, in order. *)
Definition generators : list Generator :=
  [Heatmap 30; Histogram; RankEvolution 15; SummaryStats].

Fixpoint run_all (w : World) (gens : list Generator) (df : ref) (output_dir : string)
  : M unit :=
  match gens with
  | [] => ret tt
  | g :: t => (run_generator w g df output_dir ;; run_all w t df output_dir)
  end.

(** The file each generator writes. *)
Definition output_file (g : Generator) (output_dir : string) : string :=
  path_join output_dir
    match g with
    | Heatmap _ => "heatmap_top_strings.png"
    | Histogram => "histogram_frequency_distribution.png"
    | RankEvolution _ => "rank_evolution.png"
    | SummaryStats => "summary_stats.txt"
    end.

(** What [main] runs once the table is loaded (lines 307-320). *)
Definition after_load (w : World) (df : ref) (output_dir : string) : M unit :=
  create_heatmap w df output_dir 30 ;;
  create_histogram w df output_dir ;;
  create_rank_evolution w df output_dir 15 ;;
  create_summary_stats w df output_dir ;;
  print (Text "VISUALIZATION COMPLETE!") ;;
  print (Text ("Output files saved in: " ++ output_dir ++ "/")) ;;
  print (Text "Done!").

(** The directory [main] writes to. *)
Definition output_dir_of (csv_file : string) : string :=
  match dirname csv_file with
  | EmptyString => "."%string
  | dir => dir
  end.

(** ** The properties the specification states, in its own terms *)

(** Persistence as the specification words it: the string has a row in
    every distinct iteration of the table. *)
Definition appears_at (df : DataFrame) (s : string) (it : Z) : bool :=
  existsb (fun r => String.eqb (str r) s && (iteration r =? it)) df.

Definition appears_everywhere (df : DataFrame) (s : string) : bool :=
  forallb (appears_at df s) (unique Z.eqb (map iteration df)).

Definition persistent_by_presence (df : DataFrame) : list string :=
  filter (appears_everywhere df) (unique String.eqb (map str df)).

(** The persistence count as the specification words it. *)
Definition persistence_counts_presence (df : DataFrame) : Prop :=
  length (persistent_strings df) = length (persistent_by_presence df).

(** The (string, iteration) pairs of the rows; a table logs no pair twice
    when this list has no duplicates. *)
Definition pairs (df : DataFrame) : list (string * Z) :=
  map (fun r => (str r, iteration r)) df.

(** The maximum frequency of a string over its own rows, and the N-th
    largest of these values over the distinct strings of the table. *)
Definition max_freq_of (df : DataFrame) (s : string) : option Z :=
  col_max (map frequency (rows_of s df)).

Definition per_string_maxima (df : DataFrame) : list Z :=
  flat_map (fun s => match max_freq_of df s with Some m => [m] | None => [] end)
           (unique String.eqb (map str df)).

Definition Z_geb (a b : Z) : bool := b <=? a.

Definition nth_largest (vals : list Z) (n : nat) : option Z :=
  nth_error (sort_by Z_geb vals) (n - 1).


(** The exit-status contract as the specification words it; an error of
    the table reader is left aside, since the specification lets it
    propagate: status 0 is asked for whenever the reader returns a table. *)
Definition cli_contract (w : World) (argv : list string) : Prop :=
  let csv_file := nth 1 argv EmptyString in
  let out := main w argv init in
  ((length argv < 2)%nat ->
   exit_code (fst out) = 1 /\ In usage (stdout (snd out))) /\
  ((2 <= length argv)%nat -> path_exists w csv_file = false ->
   exit_code (fst out) = 1 /\ In (file_not_found csv_file) (stdout (snd out))) /\
  ((2 <= length argv)%nat -> path_exists w csv_file = true ->
   forall d, read_csv w csv_file = inr d -> exit_code (fst out) = 0).

(** ** Sample tables *)

Definition row (it : Z) (s : string) (f rk : Z) : Row :=
  mkRow it s f rk 3 10 5 (inject_Z it).

(** One string logged at each of the iterations 1..n. *)
Definition table_of_iterations (n : nat) : DataFrame :=
  map (fun i => row (Z.of_nat i) "1-2" 1 1) (seq 1 n).

(** Two iterations, three strings; "2-3" is missing from the first. *)
Definition sample : DataFrame :=
  [ row 1 "1-2" 4 1; row 1 "3-4" 2 2;
    row 2 "1-2" 5 1; row 2 "2-3" 3 2; row 2 "3-4" 2 3 ].


(** "1-2" logged twice at iteration 1 and never at iteration 2. *)
Definition repeated : DataFrame :=
  [ row 1 "1-2" 2 1; row 1 "1-2" 2 1; row 2 "3-4" 1 1 ].

(** Worlds: every output can be written; the input exists and parses to
    [d], or exists and is rejected by the reader. *)
Definition world_with (d : DataFrame) : World :=
  mkWorld (fun _ => true) (fun _ => inr d) (fun _ _ => None).

Definition world_unreadable : World :=
  mkWorld (fun _ => true) (fun _ => inl ParserError) (fun _ _ => None).

(** The input parses to [d]; every output can be written except the
    histogram figure. *)
Definition world_histogram_fails (d : DataFrame) : World :=
  mkWorld (fun _ => true) (fun _ => inr d)
          (fun name _ =>
             if String.eqb name "logs/histogram_frequency_distribution.png"
             then Some IOError else None).

Definition argv_log : list string :=
  ["visualize_string_frequencies.py"; "logs/freq.csv"]%string.

(** ** Frame conditions on a computation *)

(** The objects of [h] are all still in [h'], at the same references and
    with the same content. *)
Definition heap_extends (h h' : list DataFrame) : Prop :=
  exists ext, h' = h ++ ext.

(** A computation that only adds objects and never calls [sys.exit]. *)
Definition tame {A : Type} (m : M A) : Prop :=
  forall st,
    heap_extends (heap st) (heap (snd (m st))) /\
    forall c, fst (m st) <> SysExit c.

(** The state in which [main] calls the loader. *)
Definition banner_state : State :=
  snd (print (Text "STRING FREQUENCY VISUALIZATION") init).

(** ** Auxiliary notions for stating properties *)

(** The sum of a column of rationals (the percentage column). *)
Definition q_sum (l : list Q) : Q := fold_right Qplus 0%Q l.

(** Whether a path has a directory part. *)
Fixpoint contains_slash (p : string) : bool :=
  match p with
  | EmptyString => false
  | String c t => Ascii.eqb c "/" || contains_slash t
  end.

(** * Facts about the list primitives *)

Section SortFacts.
Context {A : Type}.
Variable leb : A -> A -> bool.

Lemma insert_by_perm (x : A) (l : list A) :
  Permutation (insert_by leb x l) (x :: l).
Proof.
  induction l as [|y t IH]; simpl.
  - apply Permutation_refl.
  - destruct (leb x y).
    + apply Permutation_refl.
    + eapply perm_trans; [apply perm_skip, IH | apply perm_swap].
Qed.

Lemma sort_by_perm (l : list A) : Permutation (sort_by leb l) l.
Proof.
  induction l as [|x t IH]; simpl.
  - constructor.
  - eapply perm_trans; [apply insert_by_perm | apply perm_skip, IH].
Qed.

Lemma sort_by_length (l : list A) : length (sort_by leb l) = length l.
Proof. apply Permutation_length, sort_by_perm. Qed.

Lemma sort_by_In (l : list A) (x : A) : In x (sort_by leb l) <-> In x l.
Proof.
  split; apply Permutation_in;
    [apply sort_by_perm | apply Permutation_sym, sort_by_perm].
Qed.

Lemma sort_by_nil_inv (l : list A) : sort_by leb l = [] -> l = [].
Proof.
  intros H. apply length_zero_iff_nil.
  rewrite <- sort_by_length, H. reflexivity.
Qed.

Hypothesis leb_total : forall x y, leb x y = false -> leb y x = true.
Hypothesis leb_trans :
  forall x y z, leb x y = true -> leb y z = true -> leb x z = true.

Let le (x y : A) : Prop := leb x y = true.

Lemma insert_by_sorted (x : A) (l : list A) :
  StronglySorted le l -> StronglySorted le (insert_by leb x l).
Proof.
  induction 1 as [|y t Ht IH Hy]; simpl.
  - repeat constructor.
  - destruct (leb x y) eqn:E.
    + constructor.
      * constructor; assumption.
      * constructor; [exact E|].
        eapply Forall_impl; [|exact Hy].
        intros z Hz. eapply leb_trans; eassumption.
    + constructor; [exact IH|].
      apply Forall_forall. intros z Hz.
      apply (Permutation_in _ (insert_by_perm x t)) in Hz.
      destruct Hz as [<-|Hz].
      * apply leb_total, E.
      * rewrite Forall_forall in Hy. apply Hy, Hz.
Qed.

Lemma sort_by_sorted (l : list A) : StronglySorted le (sort_by leb l).
Proof.
  induction l as [|x t IH]; simpl.
  - constructor.
  - apply insert_by_sorted, IH.
Qed.
End SortFacts.

Lemma firstn_incl {A : Type} (n : nat) (l : list A) : incl (firstn n l) l.
Proof.
  intros x Hx. rewrite <- (firstn_skipn n l). apply in_or_app. now left.
Qed.

Lemma StronglySorted_firstn {A : Type} (R : A -> A -> Prop) (n : nat) (l : list A) :
  StronglySorted R l -> StronglySorted R (firstn n l).
Proof.
  intros H. revert n. induction H as [|x t Ht IH Hx]; intros [|n]; simpl;
    try constructor.
  - apply IH.
  - rewrite Forall_forall in *. intros y Hy.
    apply Hx. eapply firstn_incl; exact Hy.
Qed.

Lemma StronglySorted_nth {A : Type} (R : A -> A -> Prop) (l : list A) :
  StronglySorted R l ->
  forall i j x y, (i < j)%nat ->
    nth_error l i = Some x -> nth_error l j = Some y -> R x y.
Proof.
  induction 1 as [|a t Ht IH Ha]; intros i j x y Hij Hi Hj.
  - destruct i; discriminate.
  - destruct j as [|j]; [lia|]. simpl in Hj.
    destruct i as [|i]; simpl in Hi.
    + injection Hi as <-. rewrite Forall_forall in Ha.
      apply Ha. eapply nth_error_In; exact Hj.
    + apply (IH i j); [lia|assumption..].
Qed.

Lemma sort_by_map {A B : Type} (f : A -> B) (lebA : A -> A -> bool)
      (lebB : B -> B -> bool) (l : list A) :
  (forall x y, lebA x y = lebB (f x) (f y)) ->
  map f (sort_by lebA l) = sort_by lebB (map f l).
Proof.
  intros Hf. induction l as [|x t IH]; simpl; [reflexivity|].
  rewrite <- IH. generalize (sort_by lebA t) as s.
  induction s as [|y s IHs]; simpl; [reflexivity|].
  rewrite <- Hf. destruct (lebA x y); simpl; [reflexivity|].
  now rewrite IHs.
Qed.

Section UniqueFacts.
Context {A : Type}.
Variable eqb : A -> A -> bool.
Hypothesis eqb_spec : forall x y, eqb x y = true <-> x = y.

Lemma existsb_eqb (x : A) (l : list A) :
  existsb (eqb x) l = true <-> In x l.
Proof.
  rewrite existsb_exists. split.
  - intros (y & Hy & E). apply eqb_spec in E. now subst.
  - intros H. exists x. split; [exact H|]. now apply eqb_spec.
Qed.

Lemma unique_from_In (seen l : list A) (x : A) :
  In x (unique_from eqb seen l) <-> In x l /\ ~ In x seen.
Proof.
  revert seen. induction l as [|y t IH]; intros seen; simpl.
  - tauto.
  - destruct (existsb (eqb y) seen) eqn:E.
    + apply existsb_eqb in E. rewrite IH. split.
      * tauto.
      * intros [[->|H] Hn]; tauto.
    + assert (Hy : ~ In y seen).
      { intros H. apply existsb_eqb in H. congruence. }
      simpl. rewrite IH. simpl. split.
      * intros [->|[H Hn]]; [tauto|]. split; [tauto|]. intros Hs. apply Hn. tauto.
      * intros [[->|H] Hn]; [tauto|].
        destruct (existsb (eqb x) [y]) eqn:Ex.
        -- apply existsb_eqb in Ex. destruct Ex as [->|[]]. tauto.
        -- right. split; [exact H|]. intros [->|Hs]; [|tauto].
           assert (In x [x]) as Hx by (left; reflexivity).
           apply existsb_eqb in Hx. congruence.
Qed.

Lemma unique_from_NoDup (seen l : list A) : NoDup (unique_from eqb seen l).
Proof.
  revert seen. induction l as [|y t IH]; intros seen; simpl.
  - constructor.
  - destruct (existsb (eqb y) seen); [apply IH|].
    constructor; [|apply IH].
    rewrite unique_from_In. simpl. tauto.
Qed.

Lemma unique_In (l : list A) (x : A) : In x (unique eqb l) <-> In x l.
Proof. unfold unique. rewrite unique_from_In. simpl. tauto. Qed.

Lemma unique_NoDup (l : list A) : NoDup (unique eqb l).
Proof. apply unique_from_NoDup. Qed.
End UniqueFacts.

Lemma Zleb_total (x y : Z) : (x <=? y) = false -> (y <=? x) = true.
Proof. intros H. apply Z.leb_gt in H. apply Z.leb_le. lia. Qed.

Lemma Zleb_trans (x y z : Z) :
  (x <=? y) = true -> (y <=? z) = true -> (x <=? z) = true.
Proof. rewrite !Z.leb_le. lia. Qed.

Lemma sorted_Z_sorted (l : list Z) :
  StronglySorted (fun x y => (x <=? y) = true) (sorted_Z l).
Proof. apply sort_by_sorted; [exact Zleb_total | exact Zleb_trans]. Qed.

(** The fold behind [col_max] and [col_min] returns an element that bounds
    all the others. *)
Lemma fold_max_spec (t : list Z) (x : Z) :
  In (fold_left Z.max t x) (x :: t) /\
  forall y, In y (x :: t) -> y <= fold_left Z.max t x.
Proof.
  revert x. induction t as [|a t IH]; intros x; simpl.
  - split; [now left|]. intros y [->|[]]. lia.
  - destruct (IH (Z.max x a)) as [Hin Hle]. split.
    + destruct Hin as [E|Hin]; [|now right; right].
      rewrite <- E. destruct (Z.max_spec x a) as [[_ ->]|[_ ->]]; tauto.
    + intros y Hy. assert (Z.max x a <= fold_left Z.max t (Z.max x a))
        by (apply Hle; now left).
      destruct Hy as [->|[->|Hy]]; [lia|lia|].
      apply Hle. now right.
Qed.

Lemma fold_min_spec (t : list Z) (x : Z) :
  In (fold_left Z.min t x) (x :: t) /\
  forall y, In y (x :: t) -> fold_left Z.min t x <= y.
Proof.
  revert x. induction t as [|a t IH]; intros x; simpl.
  - split; [now left|]. intros y [->|[]]. lia.
  - destruct (IH (Z.min x a)) as [Hin Hle]. split.
    + destruct Hin as [E|Hin]; [|now right; right].
      rewrite <- E. destruct (Z.min_spec x a) as [[_ ->]|[_ ->]]; tauto.
    + intros y Hy. assert (fold_left Z.min t (Z.min x a) <= Z.min x a)
        by (apply Hle; now left).
      destruct Hy as [->|[->|Hy]]; [lia|lia|].
      apply Hle. now right.
Qed.

Lemma col_max_spec (l : list Z) (m : Z) :
  col_max l = Some m -> In m l /\ forall y, In y l -> y <= m.
Proof.
  destruct l as [|x t]; simpl; [discriminate|].
  intros [= <-]. apply fold_max_spec.
Qed.

Lemma col_min_spec (l : list Z) (m : Z) :
  col_min l = Some m -> In m l /\ forall y, In y l -> m <= y.
Proof.
  destruct l as [|x t]; simpl; [discriminate|].
  intros [= <-]. apply fold_min_spec.
Qed.

Lemma col_max_some (l : list Z) : l <> [] -> exists m, col_max l = Some m.
Proof. destruct l; [congruence|]. intros _. eexists. reflexivity. Qed.

Lemma col_min_some (l : list Z) : l <> [] -> exists m, col_min l = Some m.
Proof. destruct l; [congruence|]. intros _. eexists. reflexivity. Qed.

Lemma Zeqb_spec (x y : Z) : (x =? y) = true <-> x = y.
Proof. apply Z.eqb_eq. Qed.

Lemma Seqb_spec (x y : string) : String.eqb x y = true <-> x = y.
Proof. apply String.eqb_eq. Qed.

(** ** The stride slice *)

Lemma slice_from_incl {A : Type} (step : nat) (l : list A) (skip : nat) :
  incl (slice_from skip step l) l.
Proof.
  revert skip. induction l as [|x t IH]; intros skip y; simpl; [tauto|].
  destruct skip; simpl.
  - intros [->|H]; [now left|right; eapply IH; exact H].
  - intros H. right. eapply IH; exact H.
Qed.

Lemma slice_step_head {A : Type} (step : nat) (x : A) (t : list A) :
  slice_step step (x :: t) = x :: slice_from (step - 1) step t.
Proof. reflexivity. Qed.

Lemma slice_from_length {A : Type} (step : nat) (l : list A) :
  (1 <= step)%nat ->
  forall skip, (skip < step)%nat ->
    length (slice_from skip step l) = ((length l + step - 1 - skip) / step)%nat.
Proof.
  intros Hs. induction l as [|x t IH]; intros skip Hk; simpl.
  - symmetry. apply Nat.div_small. lia.
  - destruct skip as [|k].
    + cbn [length]. rewrite IH by lia.
      transitivity
        ((1 * step + (length t + step - 1 - (step - 1))) / step)%nat.
      * rewrite Nat.div_add_l by lia. lia.
      * f_equal. lia.
    + rewrite IH by lia. f_equal. lia.
Qed.

Lemma slice_step_length {A : Type} (step : nat) (l : list A) :
  (1 <= step)%nat ->
  length (slice_step step l) = ((length l + step - 1) / step)%nat.
Proof.
  intros Hs. unfold slice_step. rewrite slice_from_length by lia.
  f_equal. lia.
Qed.

(** ** The iteration column *)

Lemma iterations_In (df : DataFrame) (it : Z) :
  In it (iterations df) <-> In it (map iteration df).
Proof.
  unfold iterations, sorted_Z. rewrite sort_by_In.
  apply unique_In, Zeqb_spec.
Qed.

Lemma iterations_nonempty (df : DataFrame) : df <> [] -> iterations df <> [].
Proof.
  destruct df as [|r t]; [congruence|]. intros _ H.
  assert (Hin : In (iteration r) (iterations (r :: t))).
  { apply iterations_In. now left. }
  rewrite H in Hin. exact Hin.
Qed.

Lemma selected_incl (df : DataFrame) :
  incl (selected_iterations df) (map iteration df).
Proof.
  intros it H. apply iterations_In.
  eapply slice_from_incl. exact H.
Qed.

Lemma rows_at_nonempty (df : DataFrame) (it : Z) :
  In it (map iteration df) -> rows_at it df <> [].
Proof.
  intros H. apply in_map_iff in H. destruct H as (r & E & Hr).
  assert (Hin : In r (rows_at it df)).
  { apply filter_In. split; [exact Hr|]. now apply Z.eqb_eq. }
  intros Hnil. rewrite Hnil in Hin. exact Hin.
Qed.

Lemma final_iter_In (df : DataFrame) (m : Z) :
  final_iter df = Some m -> In m (map iteration df).
Proof. intros H. apply col_max_spec in H. tauto. Qed.

Lemma final_data_nonempty (df : DataFrame) : df <> [] -> final_data df <> [].
Proof.
  intros H. unfold final_data.
  destruct (col_max_some (map iteration df)) as [m Hm].
  { destruct df; [congruence|discriminate]. }
  unfold final_iter. rewrite Hm.
  apply rows_at_nonempty. apply (final_iter_In df), Hm.
Qed.

Lemma first_or_nonempty {B : Type} (col : Row -> B) (dflt : B) (data : DataFrame) :
  data <> [] ->
  exists r, iloc0 data = Some r /\ (0 <? length data)%nat = true /\
            first_or col dflt data = Some (col r).
Proof.
  destruct data as [|r t]; [congruence|]. intros _.
  exists r. repeat split.
Qed.

(** The smallest iteration is the first of the sorted distinct ones. *)
Lemma iterations_head (df : DataFrame) (h : Z) (t : list Z) (m : Z) :
  iterations df = h :: t -> col_min (map iteration df) = Some m -> h = m.
Proof.
  intros E Hm. apply col_min_spec in Hm. destruct Hm as [Hin Hle].
  assert (Hh : In h (map iteration df)).
  { apply iterations_In. rewrite E. now left. }
  assert (Hmi : In m (iterations df)) by (apply iterations_In; exact Hin).
  pose proof (sorted_Z_sorted (unique Z.eqb (map iteration df))) as Hs.
  fold (iterations df) in Hs. rewrite E in Hs, Hmi.
  apply StronglySorted_inv in Hs. destruct Hs as [_ Hall].
  rewrite Forall_forall in Hall.
  specialize (Hle h Hh).
  destruct Hmi as [->|Hmi]; [reflexivity|].
  apply Hall in Hmi. apply Z.leb_le in Hmi. lia.
Qed.

(** * create_histogram: the sampled iterations *)

Lemma step_positive (df : DataFrame) : (1 <= step df)%nat.
Proof. unfold step. lia. Qed.

Lemma n_plots_formula (df : DataFrame) :
  n_plots df = ((length (iterations df) + step df - 1) / step df)%nat.
Proof. apply slice_step_length, step_positive. Qed.

(** The stride rounds down, so the number of panels is between 1 and 23 on
    a non-empty table. *)
Lemma n_plots_bounds (df : DataFrame) :
  df <> [] -> (1 <= n_plots df <= 23)%nat.
Proof.
  intros Hne. rewrite n_plots_formula. unfold step.
  pose proof (iterations_nonempty df Hne) as Hi.
  set (T := length (iterations df)).
  assert (HT : (1 <= T)%nat).
  { subst T. destruct (iterations df); [congruence|simpl; lia]. }
  clearbody T. clear Hi Hne.
  pose proof (Nat.div_mod_eq T 12) as Hd.
  pose proof (Nat.mod_upper_bound T 12 ltac:(lia)) as Hm.
  set (q := (T / 12)%nat) in *. clearbody q.
  split.
  - apply Nat.div_le_lower_bound; lia.
  - apply Nat.lt_succ_r. apply Nat.Div0.div_lt_upper_bound. lia.
Qed.

(** C1: with 13 distinct iterations the stride is max(1, 13 // 12) = 1, so
    the slice keeps all 13 of them: more than the 12 panels the source
    comment and the specification allow. *)
Theorem histogram_samples_thirteen :
  length (iterations (table_of_iterations 13)) = 13%nat /\
  step (table_of_iterations 13) = 1%nat /\
  length (selected_iterations (table_of_iterations 13)) = 13%nat.
Proof. vm_compute. repeat split. Qed.

(** C9: on a non-empty table, selecting the rows of an iteration taken from
    the iteration column gives a non-empty sub-table.  This covers the final
    iteration of the summary and every sampled iteration of the histogram:
    the [len(...) > 0] guards hold, [.iloc[0]] has a row to read, and the
    statistics are that row's values rather than the fallback. *)
Theorem own_iteration_selects_rows (df : DataFrame) :
  df <> [] ->
  (forall it, In it (map iteration df) -> rows_at it df <> []) /\
  (exists r,
      iloc0 (final_data df) = Some r /\
      (0 <? length (final_data df))%nat = true /\
      first_or unique_strings 0 (final_data df) = Some (unique_strings r) /\
      first_or total_extracted 0 (final_data df) = Some (total_extracted r) /\
      first_or elite_size 0 (final_data df) = Some (elite_size r)) /\
  (forall it, In it (selected_iterations df) ->
     exists r,
       iloc0 (rows_at it df) = Some r /\
       (0 <? length (rows_at it df))%nat = true /\
       first_or unique_strings 0 (rows_at it df) = Some (unique_strings r) /\
       first_or total_extracted 0 (rows_at it df) = Some (total_extracted r) /\
       first_or time_sec 0%Q (rows_at it df) = Some (time_sec r)).
Proof.
  intros Hne. split; [|split].
  - intros it. apply rows_at_nonempty.
  - pose proof (final_data_nonempty df Hne) as Hf.
    destruct (final_data df) as [|r t]; [congruence|].
    exists r. repeat split.
  - intros it Hit. apply selected_incl in Hit.
    pose proof (rows_at_nonempty df it Hit) as Hr.
    destruct (rows_at it df) as [|r t]; [congruence|].
    exists r. repeat split.
Qed.

Lemma own_iteration_selects_rows_witness :
  sample <> [] /\
  (forall it, In it (map iteration sample) -> rows_at it sample <> []).
Proof.
  assert (H : sample <> []) by discriminate.
  split; [exact H|].
  exact (proj1 (own_iteration_selects_rows sample H)).
Defined.

(** C10: the sampled iterations of a non-empty table contain its smallest
    iteration, and there is a table (24 iterations, stride 2) whose largest
    iteration is not sampled. *)
Theorem sampled_contains_smallest :
  (forall df : DataFrame, df <> [] ->
     exists m, col_min (map iteration df) = Some m /\
               In m (selected_iterations df)) /\
  (exists df : DataFrame, df <> [] /\
     exists m, col_max (map iteration df) = Some m /\
               ~ In m (selected_iterations df)).
Proof.
  split.
  - intros df Hne.
    destruct (col_min_some (map iteration df)) as [m Hm].
    { destruct df; [congruence|discriminate]. }
    exists m. split; [exact Hm|].
    pose proof (iterations_nonempty df Hne) as Hi.
    unfold selected_iterations.
    destruct (iterations df) as [|h t] eqn:E; [congruence|].
    rewrite slice_step_head. left. eapply iterations_head; eassumption.
  - exists (table_of_iterations 24). split; [discriminate|].
    exists 24. split; [reflexivity|].
    vm_compute. intros H.
    repeat (destruct H as [H|H]; [discriminate H|]). exact H.
Qed.

Lemma sampled_contains_smallest_witness :
  sample <> [] /\
  exists m, col_min (map iteration sample) = Some m /\
            In m (selected_iterations sample).
Proof.
  assert (H : sample <> []) by discriminate.
  split; [exact H|].
  exact (proj1 sampled_contains_smallest sample H).
Defined.

(** * create_summary_stats: the top-20 table *)

Lemma by_rank_total (a b : Row) : by_rank_asc a b = false -> by_rank_asc b a = true.
Proof. apply Zleb_total. Qed.

Lemma by_rank_trans (a b c : Row) :
  by_rank_asc a b = true -> by_rank_asc b c = true -> by_rank_asc a c = true.
Proof. apply Zleb_trans. Qed.

Lemma nsmallest_rank_length (n : nat) (df : DataFrame) :
  length (nsmallest_rank (Z.of_nat n) df) = Nat.min n (length df).
Proof.
  unfold nsmallest_rank. destruct (Z.of_nat n <=? 0) eqn:E.
  - apply Z.leb_le in E. assert (n = 0%nat) as -> by lia. reflexivity.
  - rewrite length_firstn, sort_by_length, Nat2Z.id. reflexivity.
Qed.

Lemma nsmallest_rank_sorted (n : Z) (df : DataFrame) :
  StronglySorted (fun a b => by_rank_asc a b = true) (nsmallest_rank n df).
Proof.
  unfold nsmallest_rank. destruct (n <=? 0); [constructor|].
  apply StronglySorted_firstn.
  apply sort_by_sorted; [exact by_rank_total | exact by_rank_trans].
Qed.

Lemma nsmallest_rank_incl (n : Z) (df : DataFrame) : incl (nsmallest_rank n df) df.
Proof.
  unfold nsmallest_rank. destruct (n <=? 0); [intros x []|].
  intros x Hx. apply firstn_incl in Hx. now apply sort_by_In in Hx.
Qed.

(** C5: on a non-empty table the top-20 table of the final iteration has
    min(20, rows of the final iteration) rows, and the rank never decreases
    from a row to a later one. *)
Theorem top20_rows_by_rank (df : DataFrame) :
  df <> [] ->
  length (top20 df) = Nat.min 20 (length (final_data df)) /\
  forall i j a b, (i < j)%nat ->
    nth_error (top20 df) i = Some a -> nth_error (top20 df) j = Some b ->
    rank a <= rank b.
Proof.
  intros _. split.
  - apply (nsmallest_rank_length 20).
  - intros i j a b Hij Ha Hb. apply Z.leb_le.
    exact (StronglySorted_nth _ _ (nsmallest_rank_sorted 20 (final_data df))
             i j a b Hij Ha Hb).
Qed.

Lemma top20_rows_by_rank_witness :
  sample <> [] /\ length (top20 sample) = 3%nat.
Proof.
  assert (H : sample <> []) by discriminate.
  split; [exact H|].
  exact (proj1 (top20_rows_by_rank sample H)).
Defined.

Lemma total_freq_final (df : DataFrame) :
  final_data df <> [] ->
  total_freq df = col_sum (map frequency (final_data df)).
Proof.
  unfold total_freq. destruct (final_data df); [congruence|reflexivity].
Qed.

(** The guard of line 257 keeps a zero divisor away from the division. *)
Lemma pct_defined (df : DataFrame) (row : Row) : exists q, pct df row = Some q.
Proof.
  unfold pct, true_div. destruct (total_freq df >? 0) eqn:G.
  - assert (total_freq df > 0) as Hpos by (apply Z.gtb_gt; rewrite G; reflexivity).
    destruct (total_freq df =? 0) eqn:E.
    + apply Z.eqb_eq in E. lia.
    + eexists. reflexivity.
  - eexists. reflexivity.
Qed.

(** C6: for a row of the top-20 table, the percentage is
    frequency / sum * 100 when the final iteration's frequency sum is
    positive and 0 when the sum is 0; the division is only reached with a
    non-zero divisor, so a percentage is always produced. *)
Theorem pct_of_final_sum (df : DataFrame) (row : Row) :
  In row (top20 df) ->
  let total := col_sum (map frequency (final_data df)) in
  (exists q, pct df row = Some q) /\
  (0 < total ->
   true_div (frequency row) total
     = Some (inject_Z (frequency row) / inject_Z total)%Q /\
   pct df row
     = Some (inject_Z (frequency row) / inject_Z total * 100)%Q) /\
  (total = 0 -> pct df row = Some 0%Q).
Proof.
  intros Hin total.
  assert (Hne : final_data df <> []).
  { apply nsmallest_rank_incl in Hin. intros E. rewrite E in Hin. exact Hin. }
  pose proof (total_freq_final df Hne) as Ht. fold total in Ht.
  split; [apply pct_defined|]. split.
  - intros Hpos. unfold pct, true_div. rewrite Ht.
    assert ((total >? 0) = true) as -> by (apply Z.gtb_lt; lia).
    assert ((total =? 0) = false) as -> by (apply Z.eqb_neq; lia).
    split; reflexivity.
  - intros Hz. unfold pct. rewrite Ht, Hz. reflexivity.
Qed.

Lemma pct_of_final_sum_witness :
  In (row 2 "1-2" 5 1) (top20 sample) /\
  pct sample (row 2 "1-2" 5 1) = Some (inject_Z 5 / inject_Z 10 * 100)%Q.
Proof.
  assert (H : In (row 2 "1-2" 5 1) (top20 sample)) by (left; reflexivity).
  split; [exact H|].
  apply (proj2 (proj1 (proj2 (pct_of_final_sum sample _ H)) ltac:(reflexivity))).
Defined.

(** * Top-N selection *)

Lemma sorted_perm_eq {A : Type} (R : A -> A -> Prop) :
  (forall x y, R x y -> R y x -> x = y) ->
  forall l1 l2, StronglySorted R l1 -> StronglySorted R l2 ->
                Permutation l1 l2 -> l1 = l2.
Proof.
  intros Hanti. induction l1 as [|a t1 IH]; intros l2 H1 H2 Hp.
  - apply Permutation_nil in Hp. now subst.
  - destruct l2 as [|b t2].
    { apply Permutation_sym, Permutation_nil in Hp. discriminate. }
    apply StronglySorted_inv in H1. destruct H1 as [Ht1 Ha].
    apply StronglySorted_inv in H2. destruct H2 as [Ht2 Hb].
    rewrite Forall_forall in Ha, Hb.
    assert (a = b) as ->.
    { assert (Hab : In a (b :: t2)).
      { eapply Permutation_in; [exact Hp|now left]. }
      assert (Hba : In b (a :: t1)).
      { eapply Permutation_in; [apply Permutation_sym; exact Hp|now left]. }
      destruct Hab as [E|Hab]; [now subst|].
      destruct Hba as [E|Hba]; [now subst|].
      apply Hanti; [apply Ha, Hba | apply Hb, Hab]. }
    f_equal. apply IH; try assumption.
    eapply Permutation_cons_inv; exact Hp.
Qed.

Lemma Z_geb_total (x y : Z) : Z_geb x y = false -> Z_geb y x = true.
Proof. unfold Z_geb. apply Zleb_total. Qed.

Lemma Z_geb_trans (x y z : Z) :
  Z_geb x y = true -> Z_geb y z = true -> Z_geb x z = true.
Proof. unfold Z_geb. rewrite !Z.leb_le. lia. Qed.

(** Sorting integer values does not depend on the order they come in. *)
Lemma sort_Z_geb_perm (l1 l2 : list Z) :
  Permutation l1 l2 -> sort_by Z_geb l1 = sort_by Z_geb l2.
Proof.
  intros Hp.
  apply (sorted_perm_eq (fun x y => Z_geb x y = true)).
  - unfold Z_geb. intros x y Hx Hy. apply Z.leb_le in Hx, Hy. lia.
  - apply sort_by_sorted; [exact Z_geb_total | exact Z_geb_trans].
  - apply sort_by_sorted; [exact Z_geb_total | exact Z_geb_trans].
  - eapply perm_trans; [apply sort_by_perm|].
    eapply perm_trans; [exact Hp|]. apply Permutation_sym, sort_by_perm.
Qed.

Lemma group_keys_perm (df : DataFrame) :
  Permutation (group_keys df) (unique String.eqb (map str df)).
Proof. apply sort_by_perm. Qed.

Lemma group_keys_In (df : DataFrame) (k : string) :
  In k (group_keys df) <-> In k (map str df).
Proof.
  unfold group_keys, sorted_str. rewrite sort_by_In.
  apply unique_In, Seqb_spec.
Qed.

Lemma group_keys_NoDup (df : DataFrame) : NoDup (group_keys df).
Proof.
  eapply Permutation_NoDup; [apply Permutation_sym, group_keys_perm|].
  apply unique_NoDup, Seqb_spec.
Qed.

Lemma group_keys_length (df : DataFrame) :
  length (group_keys df) = nunique_str (map str df).
Proof. apply Permutation_length, group_keys_perm. Qed.

Lemma rows_of_nonempty (df : DataFrame) (k : string) :
  In k (map str df) -> rows_of k df <> [].
Proof.
  intros H. apply in_map_iff in H. destruct H as (r & E & Hr).
  assert (Hin : In r (rows_of k df)).
  { apply filter_In. split; [exact Hr|]. now apply String.eqb_eq. }
  intros Hnil. rewrite Hnil in Hin. exact Hin.
Qed.

Lemma max_freq_of_some (df : DataFrame) (k : string) :
  In k (map str df) -> exists m, max_freq_of df k = Some m.
Proof.
  intros H. apply col_max_some.
  pose proof (rows_of_nonempty df k H).
  destruct (rows_of k df); [congruence|discriminate].
Qed.

(** Every group has a maximum, so the grouped series has one entry per key:
    the key with [max_freq_of] it. *)
Lemma maxima_over_keys (df : DataFrame) (keys : list string) :
  incl keys (map str df) ->
  exists ms : list Z,
    flat_map (fun k => match col_max (map frequency (rows_of k df)) with
                       | Some m => [(k, m)]
                       | None => []
                       end) keys = combine keys ms /\
    flat_map (fun s => match max_freq_of df s with
                       | Some m => [m]
                       | None => []
                       end) keys = ms /\
    length ms = length keys /\
    Forall2 (fun k m => max_freq_of df k = Some m) keys ms.
Proof.
  induction keys as [|k t IH]; intros Hincl.
  - exists []. repeat split. constructor.
  - destruct IH as (ms & E1 & E2 & El & Hf).
    { intros x Hx. apply Hincl. now right. }
    destruct (max_freq_of_some df k) as [m Hm].
    { apply Hincl. now left. }
    exists (m :: ms). simpl. unfold max_freq_of in *. rewrite Hm. simpl.
    rewrite E1, E2, El. repeat split. constructor; assumption.
Qed.

Lemma combine_fst {A B : Type} (l : list A) (l' : list B) :
  length l' = length l -> map fst (combine l l') = l.
Proof.
  revert l'. induction l as [|x t IH]; intros [|y t'] H; simpl in *;
    try discriminate; [reflexivity|].
  f_equal. apply IH. lia.
Qed.

Lemma combine_snd {A B : Type} (l : list A) (l' : list B) :
  length l' = length l -> map snd (combine l l') = l'.
Proof.
  revert l'. induction l as [|x t IH]; intros [|y t'] H; simpl in *;
    try discriminate; [reflexivity|].
  f_equal. apply IH. lia.
Qed.

Lemma Forall2_combine_In {A B : Type} (P : A -> B -> Prop) (l : list A) (l' : list B) :
  Forall2 P l l' -> forall x y, In (x, y) (combine l l') -> P x y.
Proof.
  induction 1 as [|a b t t' Hab Ht IH]; intros x y Hin; simpl in Hin.
  - destruct Hin.
  - destruct Hin as [[= <- <-]|Hin]; [exact Hab | now apply IH].
Qed.

Lemma groupby_max_keys (df : DataFrame) :
  map fst (groupby_max df) = group_keys df.
Proof.
  destruct (maxima_over_keys df (group_keys df)) as (ms & E & _ & El & _).
  { intros k Hk. now apply group_keys_In. }
  unfold groupby_max. rewrite E. now apply combine_fst.
Qed.

Lemma groupby_max_entry (df : DataFrame) (k : string) (m : Z) :
  In (k, m) (groupby_max df) -> max_freq_of df k = Some m.
Proof.
  destruct (maxima_over_keys df (group_keys df)) as (ms & E & _ & _ & Hf).
  { intros x Hx. now apply group_keys_In. }
  unfold groupby_max. rewrite E.
  apply (Forall2_combine_In _ _ _ Hf).
Qed.

Lemma groupby_max_values (df : DataFrame) :
  Permutation (map snd (groupby_max df)) (per_string_maxima df).
Proof.
  destruct (maxima_over_keys df (group_keys df)) as (ms & E & E2 & El & _).
  { intros x Hx. now apply group_keys_In. }
  unfold groupby_max. rewrite E, combine_snd by exact El.
  rewrite <- E2. unfold per_string_maxima.
  apply Permutation_flat_map, group_keys_perm.
Qed.

Lemma groupby_max_length (df : DataFrame) :
  length (groupby_max df) = nunique_str (map str df).
Proof.
  rewrite <- group_keys_length, <- groupby_max_keys. now rewrite length_map.
Qed.

Lemma by_value_total (a b : string * Z) :
  by_value_desc a b = false -> by_value_desc b a = true.
Proof. apply Zleb_total. Qed.

Lemma by_value_trans (a b c : string * Z) :
  by_value_desc a b = true -> by_value_desc b c = true -> by_value_desc a c = true.
Proof. unfold by_value_desc. rewrite !Z.leb_le. lia. Qed.

(** The values of the series sorted by [nlargest] are the per-string maxima
    in descending order. *)
Lemma sorted_series_values (df : DataFrame) :
  map snd (sort_by by_value_desc (groupby_max df))
  = sort_by Z_geb (per_string_maxima df).
Proof.
  rewrite (sort_by_map snd by_value_desc Z_geb) by reflexivity.
  apply sort_Z_geb_perm, groupby_max_values.
Qed.

Lemma NoDup_firstn {A : Type} (n : nat) (l : list A) : NoDup l -> NoDup (firstn n l).
Proof.
  intros H. rewrite <- (firstn_skipn n l) in H.
  eapply NoDup_app_remove_r; exact H.
Qed.

Lemma top_strings_positive (df : DataFrame) (N : nat) :
  (0 < N)%nat ->
  top_strings df (Z.of_nat N)
  = map fst (firstn N (sort_by by_value_desc (groupby_max df))).
Proof.
  intros H. unfold top_strings, nlargest.
  assert ((Z.of_nat N <=? 0) = false) as -> by (apply Z.leb_gt; lia).
  now rewrite Nat2Z.id.
Qed.

Lemma top_strings_zero (df : DataFrame) : top_strings df 0 = [].
Proof. reflexivity. Qed.

(** C4: the top-N selection returns min(N, number of distinct strings)
    keys, all distinct and all strings of the table, and the maximum
    frequency of each selected key over its own rows is at least the N-th
    largest of the per-string maxima. *)
Theorem top_n_selection (df : DataFrame) (N : nat) :
  length (top_strings df (Z.of_nat N)) = Nat.min N (nunique_str (map str df)) /\
  NoDup (top_strings df (Z.of_nat N)) /\
  forall k, In k (top_strings df (Z.of_nat N)) ->
    In k (map str df) /\
    exists m, max_freq_of df k = Some m /\
              forall v, nth_largest (per_string_maxima df) N = Some v -> v <= m.
Proof.
  destruct N as [|N'].
  { simpl. rewrite top_strings_zero. repeat split; [constructor|..];
      destruct H. }
  set (N := S N'). assert (HN : (0 < N)%nat) by (subst N; lia).
  rewrite (top_strings_positive df N HN).
  set (S0 := sort_by by_value_desc (groupby_max df)).
  assert (Hperm : Permutation S0 (groupby_max df)) by apply sort_by_perm.
  split; [|split].
  - rewrite length_map, length_firstn. unfold S0.
    now rewrite sort_by_length, groupby_max_length.
  - rewrite <- firstn_map. apply NoDup_firstn.
    eapply Permutation_NoDup.
    + apply Permutation_sym, Permutation_map, Hperm.
    + rewrite groupby_max_keys. apply group_keys_NoDup.
  - intros k Hk. apply in_map_iff in Hk. destruct Hk as ([k' m] & E & Hin).
    simpl in E. subst k'.
    assert (Hgm : In (k, m) (groupby_max df)).
    { eapply Permutation_in; [exact Hperm|]. eapply firstn_incl; exact Hin. }
    split.
    { apply group_keys_In. rewrite <- groupby_max_keys.
      apply in_map_iff. exists (k, m). split; [reflexivity|exact Hgm]. }
    exists m. split; [apply groupby_max_entry, Hgm|].
    intros v Hv. unfold nth_largest in Hv.
    rewrite <- sorted_series_values in Hv. fold S0 in Hv.
    rewrite nth_error_map in Hv.
    destruct (nth_error S0 (N - 1)) as [e|] eqn:Ee; [|discriminate].
    simpl in Hv. injection Hv as <-.
    apply In_nth_error in Hin. destruct Hin as [i Hi].
    rewrite nth_error_firstn in Hi.
    destruct (i <? N)%nat eqn:Elt; [|discriminate].
    apply Nat.ltb_lt in Elt.
    destruct (Nat.eq_dec i (N - 1)) as [->|Hneq].
    + rewrite Hi in Ee. injection Ee as <-. simpl. lia.
    + assert (Hs : StronglySorted (fun a b => by_value_desc a b = true) S0).
      { apply sort_by_sorted; [exact by_value_total | exact by_value_trans]. }
      assert (Hle : by_value_desc (k, m) e = true).
      { apply (StronglySorted_nth _ _ Hs i (N - 1)); [lia|assumption..]. }
      unfold by_value_desc in Hle. simpl in Hle. now apply Z.leb_le.
Qed.

(** * Persistence *)

Lemma Permutation_filter_by {A : Type} (f : A -> bool) (l l' : list A) :
  Permutation l l' -> Permutation (filter f l) (filter f l').
Proof.
  induction 1 as [|x l l' H IH|x y l|l l' l'' H1 IH1 H2 IH2]; simpl.
  - constructor.
  - destruct (f x); [now constructor|assumption].
  - destruct (f x), (f y); try apply Permutation_refl. apply perm_swap.
  - eapply perm_trans; eassumption.
Qed.

Lemma filter_map_swap {A B : Type} (g : A -> B) (p : B -> bool) (l : list A) :
  filter p (map g l) = map g (filter (fun x => p (g x)) l).
Proof.
  induction l as [|x t IH]; simpl; [reflexivity|].
  destruct (p (g x)); simpl; now rewrite IH.
Qed.

Lemma persistent_strings_keys (df : DataFrame) :
  map fst (persistent_strings df)
  = filter (fun k => Nat.eqb (length (rows_of k df)) (max_appearances df))
           (group_keys df).
Proof.
  unfold persistent_strings, string_appearances, groupby_count.
  rewrite filter_map_swap, map_map. simpl. apply map_id.
Qed.

Lemma NoDup_map_filter {A B : Type} (g : A -> B) (p : A -> bool) (l : list A) :
  NoDup (map g l) -> NoDup (map g (filter p l)).
Proof.
  induction l as [|x t IH]; simpl; intros H; [constructor|].
  apply NoDup_cons_iff in H. destruct H as [Hx Ht].
  destruct (p x); simpl; [|now apply IH].
  constructor; [|now apply IH].
  intros Hin. apply Hx. apply in_map_iff in Hin.
  destruct Hin as (y & E & Hy). apply filter_In in Hy.
  apply in_map_iff. exists y. tauto.
Qed.

(** With every (string, iteration) pair logged once, the rows of a string
    sit at pairwise different iterations. *)
Lemma rows_of_iterations_NoDup (df : DataFrame) (k : string) :
  NoDup (pairs df) -> NoDup (map iteration (rows_of k df)).
Proof.
  intros H. apply (NoDup_map_filter _ (fun r => String.eqb (str r) k)) in H.
  fold (rows_of k df) in H.
  apply (NoDup_map_inv (fun it => (k, it))).
  rewrite map_map.
  erewrite map_ext_in; [exact H|].
  intros r Hr. apply filter_In in Hr. destruct Hr as [_ E].
  apply String.eqb_eq in E. now rewrite E.
Qed.

Lemma appears_at_iff (df : DataFrame) (k : string) (it : Z) :
  appears_at df k it = true <-> In it (map iteration (rows_of k df)).
Proof.
  unfold appears_at. rewrite existsb_exists, in_map_iff. split.
  - intros (r & Hr & E). apply andb_true_iff in E. destruct E as [Es Ei].
    exists r. split; [now apply Z.eqb_eq|].
    apply filter_In. tauto.
  - intros (r & E & Hr). apply filter_In in Hr. destruct Hr as [Hr Es].
    exists r. split; [exact Hr|]. rewrite Es. simpl. now apply Z.eqb_eq.
Qed.

Lemma rows_of_iterations_incl (df : DataFrame) (k : string) :
  incl (map iteration (rows_of k df)) (unique Z.eqb (map iteration df)).
Proof.
  intros it H. apply (unique_In _ Zeqb_spec).
  apply in_map_iff in H. destruct H as (r & E & Hr).
  apply filter_In in Hr. apply in_map_iff. exists r. tauto.
Qed.

(** Counting rows decides presence when no pair is repeated. *)
Lemma row_count_decides_presence (df : DataFrame) (k : string) :
  NoDup (pairs df) ->
  Nat.eqb (length (rows_of k df)) (max_appearances df) = appears_everywhere df k.
Proof.
  intros Hnd.
  pose proof (rows_of_iterations_NoDup df k Hnd) as Hk.
  pose proof (rows_of_iterations_incl df k) as Hincl.
  pose proof (unique_NoDup Z.eqb Zeqb_spec (map iteration df)) as Hu.
  pose proof (NoDup_incl_length Hk Hincl) as Hle.
  rewrite length_map in Hle.
  unfold max_appearances, nunique_Z, appears_everywhere.
  apply eq_true_iff_eq. rewrite Nat.eqb_eq, forallb_forall. split.
  - intros E it Hit. apply appears_at_iff.
    eapply (NoDup_length_incl Hk); [|exact Hincl|exact Hit].
    rewrite length_map. lia.
  - intros Hall.
    assert (Hrev : incl (unique Z.eqb (map iteration df))
                        (map iteration (rows_of k df))).
    { intros it Hit. apply appears_at_iff, Hall, Hit. }
    pose proof (NoDup_incl_length Hu Hrev) as Hge.
    rewrite length_map in Hge. lia.
Qed.

(** C3, as amended: on a table where no (string, iteration) pair is logged
    twice, the persistence count is the number of distinct strings that have
    a row in every distinct iteration, and the strings counted are exactly
    those. *)
Theorem persistence_counts_presence_unique_pairs (df : DataFrame) :
  NoDup (pairs df) ->
  length (persistent_strings df) = length (persistent_by_presence df) /\
  forall k, In k (map fst (persistent_strings df)) <-> In k (persistent_by_presence df).
Proof.
  intros Hnd.
  assert (Hp : Permutation (map fst (persistent_strings df))
                           (persistent_by_presence df)).
  { rewrite persistent_strings_keys. unfold persistent_by_presence.
    erewrite filter_ext; [|intros k; apply (row_count_decides_presence df k Hnd)].
    apply Permutation_filter_by, group_keys_perm. }
  split.
  - rewrite <- (length_map fst). apply Permutation_length, Hp.
  - intros k. split; apply Permutation_in;
      [exact Hp | apply Permutation_sym, Hp].
Qed.

Lemma sample_pairs_NoDup : NoDup (pairs sample).
Proof.
  repeat constructor; simpl; intuition discriminate.
Qed.

Lemma persistence_counts_presence_unique_pairs_witness :
  NoDup (pairs sample) /\
  length (persistent_strings sample) = length (persistent_by_presence sample).
Proof.
  split; [exact sample_pairs_NoDup|].
  exact (proj1 (persistence_counts_presence_unique_pairs sample sample_pairs_NoDup)).
Defined.

(** C3, as stated, fails on a table that logs a pair twice: "1-2" has two
    rows, as many as there are iterations, and is counted, yet it is absent
    from iteration 2. *)
Lemma persistence_repeated_pair :
  ~ persistence_counts_presence repeated.
Proof. vm_compute. discriminate. Qed.

(** * The pivot matrix *)




Lemma filter_absorb {A : Type} (p q : A -> bool) (l : list A) :
  (forall x, p x = true -> q x = true) ->
  filter p (filter q l) = filter p l.
Proof.
  intros H. induction l as [|x t IH]; simpl; [reflexivity|].
  destruct (q x) eqn:Eq; simpl.
  - now rewrite IH.
  - destruct (p x) eqn:Ep; [|exact IH].
    apply H in Ep. congruence.
Qed.


Lemma fold_add_shift (l : list Z) (a : Z) :
  fold_left Z.add l a = a + col_sum l.
Proof.
  unfold col_sum. revert a. induction l as [|x t IH]; intros a; simpl; [lia|].
  rewrite (IH (a + x)), (IH x). lia.
Qed.




Lemma pivot_index_In (d : DataFrame) (s : string) :
  In s (pv_index (sort_rows_by_max (pivot_table d))) <-> In s (map str d).
Proof.
  unfold pv_index, sort_rows_by_max, pivot_table. cbn [pv_rows].
  rewrite <- group_keys_In. unfold group_keys.
  set (index := sorted_str (unique String.eqb (map str d))).
  set (rows := map _ index).
  assert (Hkeys : map fst rows = index).
  { unfold rows. rewrite map_map. simpl. apply map_id. }
  rewrite <- Hkeys.
  split; apply Permutation_in; [|apply Permutation_sym];
    apply Permutation_map, sort_by_perm.
Qed.




(** * Effects of the generators *)

Lemma heap_extends_refl (h : list DataFrame) : heap_extends h h.
Proof. exists []. now rewrite app_nil_r. Qed.

Lemma heap_extends_trans (h1 h2 h3 : list DataFrame) :
  heap_extends h1 h2 -> heap_extends h2 h3 -> heap_extends h1 h3.
Proof.
  intros [e1 ->] [e2 ->]. exists (e1 ++ e2). now rewrite app_assoc.
Qed.

Lemma heap_extends_lookup (h h' : list DataFrame) (l : ref) (d : DataFrame) :
  heap_extends h h' -> nth_error h l = Some d -> nth_error h' l = Some d.
Proof.
  intros [ext ->] H. rewrite nth_error_app1; [exact H|].
  apply nth_error_Some. congruence.
Qed.

Lemma tame_ret {A : Type} (a : A) : tame (ret a).
Proof. intros st. split; [apply heap_extends_refl|discriminate]. Qed.

Lemma tame_raise {A : Type} (e : exn) : tame (@raise A e).
Proof. intros st. split; [apply heap_extends_refl|discriminate]. Qed.

Lemma tame_or_raise {A : Type} (e : exn) (o : option A) : tame (or_raise e o).
Proof. destruct o; [apply tame_ret|apply tame_raise]. Qed.

Lemma tame_bind {A B : Type} (m : M A) (k : A -> M B) :
  tame m -> (forall a, tame (k a)) -> tame (bind m k).
Proof.
  intros Hm Hk st. unfold bind.
  destruct (Hm st) as [Hext Hne].
  destruct (m st) as [[a|e|c] st'] eqn:E; simpl in *.
  - destruct (Hk a st') as [Hext' Hne']. split; [|exact Hne'].
    eapply heap_extends_trans; eassumption.
  - split; [exact Hext|discriminate].
  - exfalso. now apply (Hne c).
Qed.

Lemma tame_mapM {A B : Type} (f : A -> M B) (l : list A) :
  (forall a, tame (f a)) -> tame (mapM f l).
Proof.
  intros Hf. induction l as [|x t IH]; simpl.
  - apply tame_ret.
  - apply tame_bind; [apply Hf|]. intros y.
    apply tame_bind; [exact IH|]. intros ys. apply tame_ret.
Qed.

Lemma tame_print (l : Line) : tame (print l).
Proof. intros st. split; [apply heap_extends_refl|discriminate]. Qed.

Lemma tame_alloc (d : DataFrame) : tame (alloc d).
Proof. intros st. split; [now exists [d]|discriminate]. Qed.

Lemma tame_deref (l : ref) : tame (deref l).
Proof.
  intros st. unfold deref. destruct (nth_error (heap st) l); simpl;
    (split; [apply heap_extends_refl|discriminate]).
Qed.

Lemma tame_copy (l : ref) : tame (copy l).
Proof. apply tame_bind; [apply tame_deref|]. intros d. apply tame_alloc. Qed.

Lemma tame_write_file (w : World) (name : string) (a : Artifact) :
  tame (write_file w name a).
Proof.
  intros st. unfold write_file. destruct (write_error w name a); simpl;
    (split; [apply heap_extends_refl|discriminate]).
Qed.

Create HintDb tame.
#[local] Hint Resolve tame_ret tame_raise tame_or_raise tame_print tame_alloc
  tame_deref tame_copy tame_write_file : tame.

(** Peel the binds of a generator; the primitives are in the hint base. *)
Ltac tame_steps :=
  repeat first
    [ solve [auto with tame]
    | apply tame_bind; [|intros ?]
    | apply tame_mapM; intros ?
    | match goal with
      | |- tame (if ?c then _ else _) => destruct c
      | |- tame (match ?o with inl _ => _ | inr _ => _ end) => destruct o
      end ].

Lemma tame_load_data (w : World) (csv_file : string) : tame (load_data w csv_file).
Proof. unfold load_data. tame_steps. Qed.

Lemma tame_create_heatmap (w : World) (df : ref) (dir : string) (top_n : Z) :
  tame (create_heatmap w df dir top_n).
Proof. unfold create_heatmap. tame_steps. Qed.

Lemma tame_create_histogram (w : World) (df : ref) (dir : string) :
  tame (create_histogram w df dir).
Proof. unfold create_histogram. tame_steps. Qed.

Lemma tame_create_rank_evolution (w : World) (df : ref) (dir : string) (top_n : Z) :
  tame (create_rank_evolution w df dir top_n).
Proof. unfold create_rank_evolution. tame_steps. Qed.

Lemma tame_create_summary_stats (w : World) (df : ref) (dir : string) :
  tame (create_summary_stats w df dir).
Proof. unfold create_summary_stats, summary_row. tame_steps. Qed.

Lemma tame_run_generator (w : World) (g : Generator) (df : ref) (dir : string) :
  tame (run_generator w g df dir).
Proof.
  destruct g; simpl;
    [ apply tame_create_heatmap | apply tame_create_histogram
    | apply tame_create_rank_evolution | apply tame_create_summary_stats ].
Qed.

#[local] Hint Resolve tame_load_data tame_create_heatmap tame_create_histogram
  tame_create_rank_evolution tame_create_summary_stats : tame.

(** C8: whatever a generator does, and whether or not it completes, the
    loaded table it was given is afterwards the same list of rows at the
    same reference. *)
Theorem generator_leaves_table (w : World) (g : Generator) (df : ref)
        (dir : string) (st : State) (d : DataFrame) :
  nth_error (heap st) df = Some d ->
  nth_error (heap (snd (run_generator w g df dir st))) df = Some d.
Proof.
  intros H. eapply heap_extends_lookup; [|exact H].
  apply (tame_run_generator w g df dir st).
Qed.

Lemma generator_leaves_table_witness :
  nth_error (heap (mkState [sample] [] [])) 0 = Some sample /\
  nth_error
    (heap (snd (run_generator (world_with sample) (Heatmap 30) 0%nat "logs"
                  (mkState [sample] [] [])))) 0
  = Some sample.
Proof.
  assert (H : nth_error (heap (mkState [sample] [] [])) 0 = Some sample)
    by reflexivity.
  split; [exact H|].
  exact (generator_leaves_table (world_with sample) (Heatmap 30) 0%nat "logs"
           (mkState [sample] [] []) sample H).
Defined.

(** * The command line *)

Lemma print_run (l : Line) (st : State) :
  print l st = (Ok tt, mkState (heap st) (stdout st ++ [l]) (files st)).
Proof. reflexivity. Qed.

(** The three prints that end a completed run change neither the objects
    nor the files. *)
Lemma closing_prints (dir : string) (st : State) :
  exists st',
    (print (Text "VISUALIZATION COMPLETE!") ;;
     print (Text ("Output files saved in: " ++ dir ++ "/")) ;;
     print (Text "Done!"))%monad st = (Ok tt, st') /\
    files st' = files st /\ heap st' = heap st.
Proof. eexists. unfold bind. rewrite !print_run. repeat split. Qed.

(** What [main] does once the argument is there and the path exists. *)
Lemma main_with_file (w : World) (argv : list string) :
  (2 <= length argv)%nat ->
  path_exists w (nth 1 argv EmptyString) = true ->
  main w argv init
  = (let csv_file := nth 1 argv EmptyString in
     let output_dir := output_dir_of csv_file in
     print (Text "STRING FREQUENCY VISUALIZATION") ;;
     df <- load_data w csv_file ;;
     create_heatmap w df output_dir 30 ;;
     create_histogram w df output_dir ;;
     create_rank_evolution w df output_dir 15 ;;
     create_summary_stats w df output_dir ;;
     print (Text "VISUALIZATION COMPLETE!") ;;
     print (Text ("Output files saved in: " ++ output_dir ++ "/")) ;;
     print (Text "Done!"))%monad init.
Proof.
  intros Hlen Hex. unfold main.
  assert ((length argv <? 2)%nat = false) as -> by (apply Nat.ltb_ge; lia).
  rewrite Hex. reflexivity.
Qed.

Lemma tame_run_all (w : World) (gens : list Generator) (df : ref) (dir : string) :
  tame (run_all w gens df dir).
Proof.
  induction gens as [|g t IH]; simpl.
  - apply tame_ret.
  - apply tame_bind; [apply tame_run_generator|]. intros _. exact IH.
Qed.

(** After the loader, [main] ends as the four generators in sequence end:
    with their exception if one raises, normally if all complete; the
    closing prints write no file. *)
Lemma after_load_outcome (w : World) (df : ref) (dir : string) (st : State) :
  fst (after_load w df dir st) = fst (run_all w generators df dir st) /\
  files (snd (after_load w df dir st))
  = files (snd (run_all w generators df dir st)).
Proof.
  unfold after_load, run_all, generators, run_generator, bind.
  destruct (create_heatmap w df dir 30 st) as [[[]|e|c] sa];
    cbv beta iota; [|split; reflexivity..].
  destruct (create_histogram w df dir sa) as [[[]|e|c] sb];
    cbv beta iota; [|split; reflexivity..].
  destruct (create_rank_evolution w df dir 15 sb) as [[[]|e|c] sc];
    cbv beta iota; [|split; reflexivity..].
  destruct (create_summary_stats w df dir sc) as [[[]|e|c] sd];
    cbv beta iota; split; reflexivity.
Qed.

(** With the argument there and the path existing, [main] is the loader
    followed by [after_load]; an exception of the loader ends it. *)
Lemma main_outcome (w : World) (argv : list string) :
  (2 <= length argv)%nat ->
  path_exists w (nth 1 argv EmptyString) = true ->
  main w argv init
  = match load_data w (nth 1 argv EmptyString) banner_state with
    | (Ok df, st1) =>
        after_load w df (output_dir_of (nth 1 argv EmptyString)) st1
    | (Raise e, s) => (Raise e, s)
    | (SysExit c, s) => (SysExit c, s)
    end.
Proof.
  intros Hlen Hex. rewrite (main_with_file w argv Hlen Hex). cbv zeta.
  unfold bind at 1. rewrite print_run.
  change (mkState (heap init)
            (stdout init ++ [Text "STRING FREQUENCY VISUALIZATION"])
            (files init)) with banner_state.
  unfold bind at 1. reflexivity.
Qed.

(** C7, as amended: without the path argument the run prints the usage
    line and exits with status 1, having written nothing; with a path that
    does not exist it prints the error line and exits with status 1,
    having written nothing; with a path that exists it exits with status 0
    exactly when the loader and the four generators complete, the files
    written being theirs; an exception raised by the loader or by a
    generator is not handled: it ends the run, with exit status 1, and the
    files written before it stay. *)
Theorem cli_exit_status (w : World) (argv : list string) :
  let csv_file := nth 1 argv EmptyString in
  let dir := output_dir_of csv_file in
  let out := main w argv init in
  ((length argv < 2)%nat ->
   fst out = SysExit 1 /\ exit_code (fst out) = 1 /\
   In usage (stdout (snd out)) /\ files (snd out) = []) /\
  ((2 <= length argv)%nat -> path_exists w csv_file = false ->
   fst out = SysExit 1 /\ exit_code (fst out) = 1 /\
   In (file_not_found csv_file) (stdout (snd out)) /\ files (snd out) = []) /\
  ((2 <= length argv)%nat -> path_exists w csv_file = true ->
   (forall e s,
      load_data w csv_file banner_state = (Raise e, s) ->
      fst out = Raise e /\ exit_code (fst out) = 1 /\
      files (snd out) = files s) /\
   (forall df st1 st2,
      load_data w csv_file banner_state = (Ok df, st1) ->
      run_all w generators df dir st1 = (Ok tt, st2) ->
      fst out = Ok tt /\ exit_code (fst out) = 0 /\
      files (snd out) = files st2) /\
   (forall df st1 e st2,
      load_data w csv_file banner_state = (Ok df, st1) ->
      run_all w generators df dir st1 = (Raise e, st2) ->
      fst out = Raise e /\ exit_code (fst out) = 1 /\
      files (snd out) = files st2) /\
   (exit_code (fst out) = 0 ->
    exists df st1 st2,
      load_data w csv_file banner_state = (Ok df, st1) /\
      run_all w generators df dir st1 = (Ok tt, st2)) /\
   (forall c, fst out <> SysExit c)).
Proof.
  intros csv_file dir out. split; [|split].
  - intros Hlen. unfold out, main.
    assert ((length argv <? 2)%nat = true) as -> by (apply Nat.ltb_lt; lia).
    cbv [bind print sys_exit init heap stdout files fst snd exit_code app].
    repeat split. now left.
  - intros Hlen Hex. unfold out, main.
    assert ((length argv <? 2)%nat = false) as -> by (apply Nat.ltb_ge; lia).
    fold csv_file. rewrite Hex. simpl negb. cbv iota.
    cbv [bind print sys_exit init heap stdout files fst snd exit_code app].
    repeat split. now left.
  - intros Hlen Hex. unfold out. rewrite (main_outcome w argv Hlen Hex).
    fold csv_file. fold dir.
    pose proof (proj2 (tame_load_data w csv_file banner_state)) as Hload_exit.
    destruct (load_data w csv_file banner_state) as [[df|e0|c0] s0].
    + pose proof (after_load_outcome w df dir s0) as [Hfst Hfiles].
      pose proof (proj2 (tame_run_all w generators df dir s0)) as Hrun_exit.
      rewrite Hfst, Hfiles.
      destruct (run_all w generators df dir s0) as [[[]|e1|c1] s2] eqn:Erun;
        cbn [fst snd exit_code] in *.
      * split; [|split; [|split; [|split]]].
        -- intros e s H. discriminate H.
        -- intros df' st1 st2 H1 H2. injection H1 as <- <-.
           rewrite Erun in H2. injection H2 as <-. repeat split.
        -- intros df' st1 e st2 H1 H2. injection H1 as <- <-.
           rewrite Erun in H2. discriminate H2.
        -- intros _. exists df, s0, s2. split; [reflexivity|exact Erun].
        -- intros c. discriminate.
      * split; [|split; [|split; [|split]]].
        -- intros e s H. discriminate H.
        -- intros df' st1 st2 H1 H2. injection H1 as <- <-.
           rewrite Erun in H2. discriminate H2.
        -- intros df' st1 e st2 H1 H2. injection H1 as <- <-.
           rewrite Erun in H2. injection H2 as <- <-. repeat split.
        -- intros H. discriminate H.
        -- intros c. discriminate.
      * exfalso. now apply (Hrun_exit c1).
    + cbn [fst snd exit_code]. split; [|split; [|split; [|split]]].
      * intros e s H. injection H as <- <-. repeat split.
      * intros df st1 st2 H. discriminate H.
      * intros df st1 e st2 H. discriminate H.
      * intros H. discriminate H.
      * intros c. discriminate.
    + exfalso. now apply (Hload_exit c0).
Qed.

Lemma cli_exit_status_witness :
  (2 <= length argv_log)%nat /\
  path_exists (world_with sample) (nth 1 argv_log EmptyString) = true /\
  exit_code (fst (main (world_with sample) argv_log init)) = 0 /\
  (length ["visualize_string_frequencies.py"%string] < 2)%nat /\
  exit_code
    (fst (main (world_with sample) ["visualize_string_frequencies.py"%string] init))
  = 1.
Proof.
  assert (Hlen : (2 <= length argv_log)%nat) by (simpl; lia).
  assert (Hex : path_exists (world_with sample) (nth 1 argv_log EmptyString) = true)
    by reflexivity.
  assert (Hone : (length ["visualize_string_frequencies.py"%string] < 2)%nat)
    by (simpl; lia).
  split; [exact Hlen|]. split; [exact Hex|]. split; [|split; [exact Hone|]].
  - destruct (cli_exit_status (world_with sample) argv_log) as (_ & _ & H).
    destruct (H Hlen Hex) as (_ & Hrun & _).
    refine (proj1 (proj2 (Hrun _ _ _ _ _))); vm_compute; reflexivity.
  - destruct (cli_exit_status (world_with sample)
                ["visualize_string_frequencies.py"%string]) as (H & _).
    exact (proj1 (proj2 (H Hone))).
Defined.

(** C7, as stated, fails on a file that exists and is read without error
    but holds a header and no rows: create_histogram divides by zero, and
    the run ends with status 1, not 0. *)
Lemma cli_header_only_file : ~ cli_contract (world_with []) argv_log.
Proof.
  intros (_ & _ & H).
  assert (Hlen : (2 <= length argv_log)%nat) by (simpl; lia).
  specialize (H Hlen eq_refl [] eq_refl). vm_compute in H. discriminate.
Qed.

(** A file with a header and no rows: nothing is sampled, and the grid
    computation of create_histogram divides by zero. *)
Example header_only_table :
  fst (main (world_with []) argv_log init) = Raise ZeroDivisionError.
Proof. vm_compute. reflexivity. Qed.

(** * The generators, run *)

Lemma run_print {B : Type} (l : Line) (k : unit -> M B) (st : State) :
  bind (print l) k st = k tt (mkState (heap st) (stdout st ++ [l]) (files st)).
Proof. reflexivity. Qed.

Lemma run_ret {A B : Type} (a : A) (k : A -> M B) (st : State) :
  bind (ret a) k st = k a st.
Proof. reflexivity. Qed.

Lemma run_deref {B : Type} (l : ref) (d : DataFrame) (k : DataFrame -> M B) (st : State) :
  nth_error (heap st) l = Some d -> bind (deref l) k st = k d st.
Proof. intros H. unfold bind, deref. now rewrite H. Qed.

(** Reading back the object just created. *)
Lemma run_alloc_deref {B : Type} (d : DataFrame) (k : ref -> DataFrame -> M B)
      (st : State) :
  (x <- alloc d ;; y <- deref x ;; k x y)%monad st
  = k (length (heap st)) d (mkState (heap st ++ [d]) (stdout st) (files st)).
Proof.
  unfold bind, alloc, deref. cbn [heap].
  rewrite nth_error_app2, Nat.sub_diag by lia. reflexivity.
Qed.

(** The percentage column never raises: every row gets its [pct]. *)
Lemma run_summary_rows (d : DataFrame) (rows : list Row) (st : State) :
  exists out,
    mapM (summary_row d) rows st = (Ok out, st) /\
    Forall2 (fun r sr => sr_rank sr = rank r /\ sr_string sr = str r /\
                         sr_frequency sr = frequency r /\
                         pct d r = Some (sr_pct sr)) rows out.
Proof.
  induction rows as [|r t (out & E & Hf)].
  - exists []. split; [reflexivity|constructor].
  - destruct (pct_defined d r) as [q Hq].
    exists (mkSummaryRow (rank r) (str r) (frequency r) q :: out).
    split.
    + cbn [mapM]. unfold summary_row at 1. unfold bind at 1 2.
      rewrite Hq. cbn [or_raise ret]. unfold bind. rewrite E. reflexivity.
    + constructor; [simpl; tauto|exact Hf].
Qed.

(** The summary generator on a loaded table: the only exception it can end
    in comes from writing the file; the table written is [top20] with its
    percentages, and the persistence count is that of [persistent_strings]. *)
Lemma create_summary_stats_run (w : World) (df : ref) (dir : string)
      (st : State) (d : DataFrame) :
  nth_error (heap st) df = Some d ->
  exists s st',
    Forall2 (fun r sr => sr_rank sr = rank r /\ sr_string sr = str r /\
                         sr_frequency sr = frequency r /\
                         pct d r = Some (sr_pct sr)) (top20 d) (s_top20 s) /\
    s_persistent_count s = length (persistent_strings d) /\
    s_final_stats s
    = option_map (fun r => (unique_strings r, total_extracted r, elite_size r))
                 (iloc0 (final_data d)) /\
    files st' = files st /\
    create_summary_stats w df dir st
    = match write_error w (path_join dir "summary_stats.txt") (SummaryTxt s) with
      | Some e => (Raise e, st')
      | None =>
          (Ok tt,
           mkState (heap st')
                   (stdout st' ++
                      [Text ("Saved summary: " ++ path_join dir "summary_stats.txt")])
                   (files st' ++ [(path_join dir "summary_stats.txt", SummaryTxt s)]))
      end.
Proof.
  intros Hd. unfold create_summary_stats.
  rewrite run_print. rewrite (run_deref df d) by exact Hd.
  rewrite run_alloc_deref. cbn [heap stdout files].
  set (stats := option_map
                  (fun r => (unique_strings r, total_extracted r, elite_size r))
                  (iloc0 (final_data d))).
  assert (Hstats : forall (B : Type) (k : option (Z * Z * Z) -> M B) s0,
             bind (if (0 <? length (final_data d))%nat
                   then r <- or_raise IndexError (iloc0 (final_data d)) ;;
                        ret (Some (unique_strings r, total_extracted r, elite_size r))
                   else ret None) k s0 = k stats s0).
  { intros B k s0. unfold stats. destruct (final_data d); reflexivity. }
  rewrite Hstats. rewrite run_alloc_deref. cbn [heap stdout files].
  fold (top20 d).
  match goal with
  | |- context [bind (mapM (summary_row d) (top20 d)) ?k ?s0] =>
      destruct (run_summary_rows d (top20 d) s0) as (rows & Erows & Hrows);
      assert (Hk : bind (mapM (summary_row d) (top20 d)) k s0 = k rows s0)
        by (unfold bind at 1; rewrite Erows; reflexivity);
      rewrite Hk; clear Hk Erows
  end.
  match goal with
  | |- context [bind (if ?c then ?m else ret []) ?k ?s0] =>
      assert (Htop : exists top10 s1,
                 (if c then m else ret []) s0 = (Ok top10, s1) /\
                 files s1 = files s0 /\ stdout s1 = stdout s0);
      [ destruct c;
        [ rewrite run_alloc_deref; cbn [heap stdout files];
          rewrite run_alloc_deref; cbn [heap stdout files];
          do 2 eexists; split; [reflexivity|split; reflexivity]
        | do 2 eexists; split; [reflexivity|split; reflexivity] ]
      | destruct Htop as (top10 & s1 & Etop & Hfiles & Hout);
        assert (Hk : bind (if c then m else ret []) k s0 = k top10 s1)
          by (unfold bind at 1; rewrite Etop; reflexivity);
        rewrite Hk; clear Hk Etop ]
  end.
  cbn [files stdout] in Hfiles, Hout.
  unfold bind, write_file.
  match goal with
  | |- context [write_error w _ (SummaryTxt ?s)] => exists s, s1
  end.
  cbn [s_top20 s_persistent_count s_final_stats].
  split; [exact Hrows|]. split; [reflexivity|]. split; [reflexivity|].
  split; [exact Hfiles|].
  destruct (write_error w _ _); reflexivity.
Qed.

(** A panel for an iteration of the table reads its statistics from the
    first row logged at that iteration. *)
Lemma panel_first_row (d : DataFrame) (it : Z) :
  In it (map iteration d) ->
  exists r,
    iloc0 (rows_at it d) = Some r /\
    panel d it
    = Some (mkPanel it (map frequency (rows_at it d))
                    (unique_strings r) (total_extracted r) (time_sec r)).
Proof.
  intros H. pose proof (rows_at_nonempty d it H) as Hne.
  unfold panel, panel_of. destruct (rows_at it d) as [|r t]; [congruence|].
  exists r. split; reflexivity.
Qed.

Lemma run_panels (d : DataFrame) (its : list Z) (st : State) :
  incl its (map iteration d) ->
  exists panels st',
    mapM (fun it =>
            iter_data <- alloc (rows_at it d) ;;
            data <- deref iter_data ;;
            or_raise IndexError (panel_of it data)) its st
    = (Ok panels, st') /\
    files st' = files st /\ stdout st' = stdout st /\
    Forall2 (fun it p => panel d it = Some p) its panels.
Proof.
  revert st. induction its as [|it t IH]; intros st Hincl.
  - exists [], st. repeat split. constructor.
  - destruct (panel_first_row d it) as (r & _ & Hp).
    { apply Hincl. now left. }
    cbn [mapM]. unfold bind at 1. rewrite run_alloc_deref.
    fold (panel d it). rewrite Hp. cbn [or_raise ret]. cbv beta iota.
    match goal with
    | |- context [bind (mapM ?f t) _ ?s0] =>
        destruct (IH s0) as (panels & st' & E & Hf & Ho & Hall);
        [intros x Hx; apply Hincl; now right|]
    end.
    unfold bind at 1. rewrite E. do 2 eexists. split; [reflexivity|].
    split; [exact Hf|]. split; [exact Ho|].
    constructor; [exact Hp|exact Hall].
Qed.

(** The histogram generator on a loaded, non-empty table: the grid
    division and the first-row reads succeed, so the only exception it can
    end in comes from writing the figure; there is one panel per sampled
    iteration. *)
Lemma create_histogram_run (w : World) (df : ref) (dir : string)
      (st : State) (d : DataFrame) :
  d <> [] ->
  nth_error (heap st) df = Some d ->
  exists rows panels st',
    n_rows d = Some rows /\
    Forall2 (fun it p => panel d it = Some p) (selected_iterations d) panels /\
    files st' = files st /\
    create_histogram w df dir st
    = let name := path_join dir "histogram_frequency_distribution.png" in
      match write_error w name (HistogramFig rows (n_cols d) panels) with
      | Some e => (Raise e, st')
      | None =>
          (Ok tt,
           mkState (heap st')
                   (stdout st' ++ [Text ("Saved histogram: " ++ name)])
                   (files st' ++ [(name, HistogramFig rows (n_cols d) panels)]))
      end.
Proof.
  intros Hne Hd. unfold create_histogram.
  rewrite run_print. rewrite (run_deref df d) by exact Hd.
  pose proof (n_plots_bounds d Hne) as Hb.
  fold (n_plots d). fold (n_cols d).
  destruct (n_rows d) as [rows|] eqn:Erows.
  2:{ unfold n_rows, floor_div in Erows. unfold n_cols in Erows.
      destruct (Nat.min 4 (n_plots d)) eqn:Em; [lia|discriminate]. }
  unfold n_rows in Erows. rewrite Erows. cbn [or_raise]. rewrite run_ret.
  match goal with
  | |- context [bind (mapM ?f (selected_iterations d)) ?k ?s0] =>
      destruct (run_panels d (selected_iterations d) s0 (selected_incl d))
        as (panels & st' & E & Hf & Ho & Hall);
      assert (Hk : bind (mapM f (selected_iterations d)) k s0 = k panels st')
        by (unfold bind at 1; rewrite E; reflexivity);
      rewrite Hk; clear Hk E
  end.
  exists rows, panels, st'. cbn [files] in Hf.
  split; [reflexivity|]. split; [exact Hall|]. split; [exact Hf|].
  unfold bind, write_file. cbv zeta.
  destruct (write_error w _ _); reflexivity.
Qed.

(** Selecting rows, copying the selection and reading the copy. *)
Lemma run_alloc_copy_deref {B : Type} (d : DataFrame)
      (k : ref -> ref -> DataFrame -> M B) (st : State) :
  (sel <- alloc d ;; c <- copy sel ;; dt <- deref c ;; k sel c dt)%monad st
  = k (length (heap st)) (S (length (heap st))) d
      (mkState ((heap st ++ [d]) ++ [d]) (stdout st) (files st)).
Proof.
  unfold copy, bind, alloc, deref. cbn [heap fst snd].
  rewrite nth_error_app2, Nat.sub_diag by lia. cbn [nth_error heap].
  rewrite length_app. cbn [length].
  rewrite nth_error_app2 by (rewrite length_app; simpl; lia).
  rewrite length_app. cbn [length].
  replace (length (heap st) + 1 - (length (heap st) + 1))%nat with 0%nat by lia.
  cbn [nth_error]. f_equal. lia.
Qed.

(** The heatmap generator on a loaded table draws [heatmap_pivot]. *)
Lemma create_heatmap_run (w : World) (df : ref) (dir : string) (top_n : Z)
      (st : State) (d : DataFrame) :
  nth_error (heap st) df = Some d ->
  exists st',
    files st' = files st /\
    create_heatmap w df dir top_n st
    = let name := path_join dir "heatmap_top_strings.png" in
      match write_error w name (HeatmapFig top_n (heatmap_pivot d top_n)) with
      | Some e => (Raise e, st')
      | None =>
          (Ok tt,
           mkState (heap st')
                   (stdout st' ++ [Text ("Saved heatmap: " ++ name)])
                   (files st' ++ [(name, HeatmapFig top_n (heatmap_pivot d top_n))]))
      end.
Proof.
  intros Hd. unfold create_heatmap.
  rewrite run_print. rewrite (run_deref df d) by exact Hd.
  rewrite run_alloc_copy_deref. cbn [heap stdout files].
  fold (heatmap_pivot d top_n).
  eexists (mkState _ _ _). split; [reflexivity|].
  unfold bind, write_file. cbv zeta. cbn [heap stdout files].
  destruct (write_error w _ _); reflexivity.
Qed.

Lemma run_rank_lines (dt : DataFrame) (keys : list string) (st : State) :
  exists st',
    mapM (fun s =>
            sel_s <- alloc (rows_of s dt) ;;
            ds <- deref sel_s ;;
            string_data <- alloc (sort_by by_iteration_asc ds) ;;
            sd <- deref string_data ;;
            ret (s, map (fun r => (iteration r, rank r)) sd)) keys st
    = (Ok (map (rank_line dt) keys), st') /\
    files st' = files st /\ stdout st' = stdout st.
Proof.
  revert st. induction keys as [|s t IH]; intros st.
  - exists st. repeat split.
  - cbn [mapM map]. unfold bind at 1.
    rewrite run_alloc_deref. rewrite run_alloc_deref.
    cbn [ret heap stdout files]. cbv beta iota.
    match goal with
    | |- context [bind (mapM ?f t) _ ?s0] =>
        destruct (IH s0) as (st' & E & Hf & Ho)
    end.
    unfold bind at 1. rewrite E. eexists. split; [reflexivity|].
    split; [exact Hf|exact Ho].
Qed.

(** The rank-evolution generator on a loaded table draws [rank_lines]. *)
Lemma create_rank_evolution_run (w : World) (df : ref) (dir : string) (top_n : Z)
      (st : State) (d : DataFrame) :
  nth_error (heap st) df = Some d ->
  exists st',
    files st' = files st /\
    create_rank_evolution w df dir top_n st
    = let name := path_join dir "rank_evolution.png" in
      match write_error w name (RankFig top_n (rank_lines d top_n)) with
      | Some e => (Raise e, st')
      | None =>
          (Ok tt,
           mkState (heap st')
                   (stdout st' ++ [Text ("Saved rank evolution: " ++ name)])
                   (files st' ++ [(name, RankFig top_n (rank_lines d top_n))]))
      end.
Proof.
  intros Hd. unfold create_rank_evolution.
  rewrite run_print. rewrite (run_deref df d) by exact Hd.
  rewrite run_alloc_copy_deref. cbn [heap stdout files].
  match goal with
  | |- context [bind (mapM ?f (top_strings d top_n)) ?k ?s0] =>
      destruct (run_rank_lines (isin (top_strings d top_n) d)
                  (top_strings d top_n) s0) as (st' & E & Hf & Ho);
      assert (Hk : bind (mapM f (top_strings d top_n)) k s0
                   = k (map (rank_line (isin (top_strings d top_n) d))
                            (top_strings d top_n)) st')
        by (unfold bind at 1; rewrite E; reflexivity);
      rewrite Hk; clear Hk E
  end.
  fold (rank_lines d top_n). cbn [files] in Hf.
  exists st'. split; [exact Hf|].
  unfold bind, write_file. cbv zeta.
  destruct (write_error w _ _); reflexivity.
Qed.

(** * A complete run *)

(** With a non-empty table and outputs that can be written, a generator
    completes and adds its one file. *)
Lemma run_generator_completes (w : World) (g : Generator) (df : ref)
      (dir : string) (st : State) (d : DataFrame) :
  d <> [] ->
  (forall name a, write_error w name a = None) ->
  nth_error (heap st) df = Some d ->
  exists st',
    run_generator w g df dir st = (Ok tt, st') /\
    nth_error (heap st') df = Some d /\
    map fst (files st') = map fst (files st) ++ [output_file g dir].
Proof.
  intros Hne Hw Hd.
  pose proof (generator_keeps := tame_run_generator w g df dir st).
  destruct generator_keeps as [Hext _].
  assert (Hrun : exists st', run_generator w g df dir st = (Ok tt, st') /\
                   map fst (files st') = map fst (files st) ++ [output_file g dir]).
  { destruct g; cbn [run_generator output_file].
    - destruct (create_heatmap_run w df dir top_n st d Hd) as (st' & Hf & E).
      cbv zeta in E. rewrite Hw in E. rewrite E. eexists. split; [reflexivity|].
      cbn [files]. now rewrite map_app, Hf.
    - destruct (create_histogram_run w df dir st d Hne Hd)
        as (rows & panels & st' & _ & _ & Hf & E).
      cbv zeta in E. rewrite Hw in E. rewrite E. eexists. split; [reflexivity|].
      cbn [files]. now rewrite map_app, Hf.
    - destruct (create_rank_evolution_run w df dir top_n st d Hd) as (st' & Hf & E).
      cbv zeta in E. rewrite Hw in E. rewrite E. eexists. split; [reflexivity|].
      cbn [files]. now rewrite map_app, Hf.
    - destruct (create_summary_stats_run w df dir st d Hd)
        as (s & st' & _ & _ & _ & Hf & E).
      rewrite Hw in E. rewrite E. eexists. split; [reflexivity|].
      cbn [files]. now rewrite map_app, Hf. }
  destruct Hrun as (st' & E & Hf). exists st'. split; [exact E|].
  split; [|exact Hf].
  rewrite E in Hext. eapply heap_extends_lookup; [exact Hext|exact Hd].
Qed.

(** X14: a run on an existing file that parses to a non-empty table, with
    outputs that can be written, completes: exit status 0 and the four
    output files, in the order of the generators. *)
Theorem main_completes (w : World) (argv : list string) (d : DataFrame) :
  let csv_file := nth 1 argv EmptyString in
  (2 <= length argv)%nat ->
  path_exists w csv_file = true ->
  read_csv w csv_file = inr d ->
  d <> [] ->
  (forall name a, write_error w name a = None) ->
  fst (main w argv init) = Ok tt /\
  map fst (files (snd (main w argv init)))
  = map (fun g => output_file g (output_dir_of csv_file)) generators.
Proof.
  intros csv_file Hlen Hex Hread Hne Hw.
  rewrite (main_with_file w argv Hlen Hex). fold csv_file. cbv zeta.
  set (dir := output_dir_of csv_file).
  match goal with
  | |- fst ?run = _ /\ _ =>
      assert (Hrun : exists s6,
                 run = (Ok tt, s6) /\
                 map fst (files s6)
                 = map (fun g => output_file g dir) generators)
  end.
  { rewrite run_print.
    assert (Hload : exists s1,
               load_data w csv_file
                 (mkState (heap init)
                    (stdout init ++ [Text "STRING FREQUENCY VISUALIZATION"])
                    (files init)) = (Ok 0%nat, s1) /\
               nth_error (heap s1) 0 = Some d /\ files s1 = []).
    { unfold load_data. rewrite Hread. eexists. split; [reflexivity|].
      split; reflexivity. }
    destruct Hload as (s1 & Eload & Hd1 & Hf1).
    unfold bind at 1. rewrite Eload.
    destruct (run_generator_completes w (Heatmap 30) 0%nat dir s1 d Hne Hw Hd1)
      as (s2 & E2 & Hd2 & Hf2).
    destruct (run_generator_completes w Histogram 0%nat dir s2 d Hne Hw Hd2)
      as (s3 & E3 & Hd3 & Hf3).
    destruct (run_generator_completes w (RankEvolution 15) 0%nat dir s3 d Hne Hw Hd3)
      as (s4 & E4 & Hd4 & Hf4).
    destruct (run_generator_completes w SummaryStats 0%nat dir s4 d Hne Hw Hd4)
      as (s5 & E5 & Hd5 & Hf5).
    cbn [run_generator] in E2, E3, E4, E5.
    unfold bind at 1. rewrite E2.
    unfold bind at 1. rewrite E3.
    unfold bind at 1. rewrite E4.
    unfold bind at 1. rewrite E5.
    destruct (closing_prints dir s5) as (s6 & E6 & Hf6 & _).
    exists s6. split; [exact E6|].
    rewrite Hf6, Hf5, Hf4, Hf3, Hf2, Hf1. reflexivity. }
  destruct Hrun as (s6 & -> & Hfiles). split; [reflexivity|exact Hfiles].
Qed.

(** * Further properties of the histogram sampling *)

Lemma slice_step_one {A : Type} (l : list A) : slice_step 1 l = l.
Proof.
  unfold slice_step. induction l as [|x t IH]; simpl; [reflexivity|].
  now rewrite IH.
Qed.

Lemma slice_from_nth {A : Type} (step : nat) (l : list A) :
  (1 <= step)%nat ->
  forall skip k,
    nth_error (slice_from skip step l) k = nth_error l (skip + k * step).
Proof.
  intros Hs. induction l as [|x t IH]; intros skip k.
  - simpl. destruct k, (skip + _ * step)%nat; reflexivity.
  - destruct skip as [|s].
    + cbn [slice_from]. destruct k as [|k'].
      * reflexivity.
      * cbn [nth_error]. rewrite IH.
        replace (0 + S k' * step)%nat with (S (step - 1 + k' * step)) by lia.
        reflexivity.
    + cbn [slice_from]. rewrite IH.
      replace (S s + k * step)%nat with (S (s + k * step)) by lia.
      reflexivity.
Qed.

Lemma iterations_NoDup (df : DataFrame) : NoDup (iterations df).
Proof.
  eapply Permutation_NoDup.
  - apply Permutation_sym, sort_by_perm.
  - apply unique_NoDup, Zeqb_spec.
Qed.

Lemma NoDup_nth_neq {A : Type} (l : list A) :
  NoDup l ->
  forall i j x y, (i < j)%nat ->
    nth_error l i = Some x -> nth_error l j = Some y -> x <> y.
Proof.
  induction 1 as [|a t Ha Ht IH]; intros i j x y Hij Hi Hj.
  - destruct i; discriminate.
  - destruct j as [|j]; [lia|]. simpl in Hj.
    destruct i as [|i]; simpl in Hi.
    + injection Hi as <-. intros ->. apply Ha.
      eapply nth_error_In; exact Hj.
    + apply (IH i j); [lia|assumption..].
Qed.

(** X1: on a non-empty table the number of histogram panels is the number
    T of distinct iterations divided by the stride, rounded up; it lies
    between 1 and 23; every iteration is drawn when T is at most 12; and
    exactly 12 are drawn when T is a multiple of 12. *)
Theorem histogram_panel_count (df : DataFrame) :
  df <> [] ->
  let T := length (iterations df) in
  n_plots df = ((T + step df - 1) / step df)%nat /\
  (1 <= n_plots df <= 23)%nat /\
  ((T <= 12)%nat -> selected_iterations df = iterations df) /\
  ((T mod 12 = 0)%nat -> n_plots df = 12%nat).
Proof.
  intros Hne T. split; [apply n_plots_formula|].
  split; [apply n_plots_bounds, Hne|].
  assert (HT : (1 <= T)%nat).
  { pose proof (iterations_nonempty df Hne). unfold T.
    destruct (iterations df); [congruence|simpl; lia]. }
  split.
  - intros Hle. unfold selected_iterations.
    assert (step df = 1%nat) as ->.
    { unfold step. fold T.
      assert (T / 12 <= 1)%nat; [|lia].
      destruct (Nat.eq_dec T 12) as [->|]; [reflexivity|].
      rewrite Nat.div_small by lia. lia. }
    apply slice_step_one.
  - intros Hmod. rewrite n_plots_formula. unfold step. fold T.
    pose proof (Nat.div_mod_eq T 12) as Hd. rewrite Hmod in Hd.
    set (q := (T / 12)%nat) in *.
    assert (Hq : (1 <= q)%nat) by lia.
    replace (Nat.max 1 q) with q by lia.
    replace (T + q - 1)%nat with (12 * q + (q - 1))%nat by lia.
    rewrite Nat.div_add_l by lia.
    rewrite (Nat.div_small (q - 1) q) by lia. lia.
Qed.

Lemma histogram_panel_count_witness :
  sample <> [] /\ n_plots sample = 2%nat /\
  selected_iterations sample = iterations sample.
Proof.
  assert (H : sample <> []) by discriminate.
  split; [exact H|].
  destruct (histogram_panel_count sample H) as (Hf & _ & Hall & _).
  split; [rewrite Hf; reflexivity|].
  apply Hall. vm_compute. lia.
Defined.

Lemma iterations_increasing (df : DataFrame) :
  forall i j a b, (i < j)%nat ->
    nth_error (iterations df) i = Some a ->
    nth_error (iterations df) j = Some b -> a < b.
Proof.
  intros i j a b Hij Ha Hb.
  pose proof (StronglySorted_nth _ _ (sorted_Z_sorted _) i j a b Hij Ha Hb) as Hle.
  pose proof (NoDup_nth_neq _ (iterations_NoDup df) i j a b Hij Ha Hb) as Hneq.
  apply Z.leb_le in Hle. lia.
Qed.

(** X2: the sampled iterations are evenly spaced: the k-th sampled
    iteration is the (k * step)-th of the distinct iterations, which are in
    strictly increasing order. *)
Theorem sampled_evenly_spaced (df : DataFrame) :
  (forall k, nth_error (selected_iterations df) k
             = nth_error (iterations df) (k * step df)) /\
  (forall i j a b, (i < j)%nat ->
     nth_error (iterations df) i = Some a ->
     nth_error (iterations df) j = Some b -> a < b).
Proof.
  split.
  - intros k. unfold selected_iterations, slice_step.
    now rewrite slice_from_nth by apply step_positive.
  - apply iterations_increasing.
Qed.

(** X3: on a non-empty table the subplot grid has between 1 and 4 columns
    and enough rows for every panel, so each panel has an axis of its own;
    fewer than one row of axes is left unused. *)
Theorem histogram_grid_fits (df : DataFrame) :
  df <> [] ->
  exists rows,
    n_rows df = Some rows /\
    (1 <= n_cols df <= 4)%nat /\
    (n_plots df <= rows * n_cols df)%nat /\
    (rows * n_cols df < n_plots df + n_cols df)%nat.
Proof.
  intros Hne. pose proof (n_plots_bounds df Hne) as Hb.
  unfold n_rows, n_cols. set (n := n_plots df) in *.
  set (c := Nat.min 4 n). assert (Hc : (1 <= c <= 4)%nat) by (unfold c; lia).
  exists ((n + c - 1) / c)%nat. split.
  - unfold floor_div. destruct c; [lia|reflexivity].
  - split; [exact Hc|].
    pose proof (Nat.div_mod_eq (n + c - 1) c) as Hd.
    pose proof (Nat.mod_upper_bound (n + c - 1) c ltac:(lia)) as Hm.
    rewrite (Nat.mul_comm _ c). lia.
Qed.

Lemma histogram_grid_fits_witness :
  sample <> [] /\ exists rows, n_rows sample = Some rows /\
                               (n_plots sample <= rows * n_cols sample)%nat.
Proof.
  assert (H : sample <> []) by discriminate.
  split; [exact H|].
  destruct (histogram_grid_fits sample H) as (rows & Hr & _ & Hfit & _).
  exists rows. split; [exact Hr|exact Hfit].
Defined.

(** X4: given a table without rows, the histogram generator ends in a
    ZeroDivisionError from the grid computation and writes no file. *)
Theorem histogram_empty_table (w : World) (df : ref) (dir : string) (st : State) :
  nth_error (heap st) df = Some [] ->
  fst (create_histogram w df dir st) = Raise ZeroDivisionError /\
  files (snd (create_histogram w df dir st)) = files st.
Proof.
  intros Hd. unfold create_histogram.
  rewrite run_print. rewrite (run_deref df []) by exact Hd.
  split; reflexivity.
Qed.

Lemma histogram_empty_table_witness :
  nth_error (heap (mkState [[]] [] [])) 0 = Some [] /\
  fst (create_histogram (world_with []) 0%nat "logs" (mkState [[]] [] []))
  = Raise ZeroDivisionError.
Proof.
  assert (H : nth_error (heap (mkState [[]] [] [])) 0 = Some []) by reflexivity.
  split; [exact H|].
  exact (proj1 (histogram_empty_table (world_with []) 0%nat "logs"
                  (mkState [[]] [] []) H)).
Defined.

(** * Further properties of the generators *)

(** X5: on a loaded, non-empty table a generator raises nothing of its
    own: it either completes, having added exactly its output file, or ends
    in the exception met when writing that file, having added none. *)
Theorem generator_fails_only_on_write (w : World) (g : Generator) (df : ref)
        (dir : string) (st : State) (d : DataFrame) :
  d <> [] ->
  nth_error (heap st) df = Some d ->
  exists a,
    (write_error w (output_file g dir) a = None /\
     fst (run_generator w g df dir st) = Ok tt /\
     files (snd (run_generator w g df dir st))
     = files st ++ [(output_file g dir, a)]) \/
    (exists e,
        write_error w (output_file g dir) a = Some e /\
        fst (run_generator w g df dir st) = Raise e /\
        files (snd (run_generator w g df dir st)) = files st).
Proof.
  intros Hne Hd. destruct g; cbn [run_generator output_file].
  - destruct (create_heatmap_run w df dir top_n st d Hd) as (st' & Hf & E).
    cbv zeta in E. rewrite E.
    exists (HeatmapFig top_n (heatmap_pivot d top_n)).
    destruct (write_error w _ _) as [e|].
    + right. exists e. cbn [fst snd]. auto.
    + left. cbn [fst snd files]. rewrite Hf. auto.
  - destruct (create_histogram_run w df dir st d Hne Hd)
      as (rows & panels & st' & _ & _ & Hf & E).
    cbv zeta in E. rewrite E.
    exists (HistogramFig rows (n_cols d) panels).
    destruct (write_error w _ _) as [e|].
    + right. exists e. cbn [fst snd]. auto.
    + left. cbn [fst snd files]. rewrite Hf. auto.
  - destruct (create_rank_evolution_run w df dir top_n st d Hd) as (st' & Hf & E).
    cbv zeta in E. rewrite E.
    exists (RankFig top_n (rank_lines d top_n)).
    destruct (write_error w _ _) as [e|].
    + right. exists e. cbn [fst snd]. auto.
    + left. cbn [fst snd files]. rewrite Hf. auto.
  - destruct (create_summary_stats_run w df dir st d Hd)
      as (s & st' & _ & _ & _ & Hf & E).
    rewrite E. exists (SummaryTxt s).
    destruct (write_error w _ _) as [e|].
    + right. exists e. cbn [fst snd]. auto.
    + left. cbn [fst snd files]. rewrite Hf. auto.
Qed.

Lemma generator_fails_only_on_write_witness :
  sample <> [] /\
  nth_error (heap (mkState [sample] [] [])) 0 = Some sample /\
  fst (run_generator (world_with sample) Histogram 0%nat "logs"
         (mkState [sample] [] [])) = Ok tt.
Proof.
  assert (Hne : sample <> []) by discriminate.
  assert (Hd : nth_error (heap (mkState [sample] [] [])) 0 = Some sample)
    by reflexivity.
  split; [exact Hne|]. split; [exact Hd|].
  destruct (generator_fails_only_on_write (world_with sample) Histogram 0%nat
              "logs" (mkState [sample] [] []) sample Hne Hd)
    as (a & [(_ & Hok & _)|(e & Hw & _)]).
  - exact Hok.
  - discriminate Hw.
Defined.

(** * Further properties of the top-N selection *)

Lemma StronglySorted_app_inv {A : Type} (R : A -> A -> Prop) (l1 l2 : list A) :
  StronglySorted R (l1 ++ l2) ->
  forall x y, In x l1 -> In y l2 -> R x y.
Proof.
  induction l1 as [|a t IH]; simpl; intros Hs x y Hx Hy; [destruct Hx|].
  apply StronglySorted_inv in Hs. destruct Hs as [Ht Ha].
  destruct Hx as [->|Hx].
  - rewrite Forall_forall in Ha. apply Ha, in_or_app. now right.
  - now apply IH.
Qed.

Lemma top_strings_nonpositive (df : DataFrame) (n : Z) :
  n <= 0 -> top_strings df n = [].
Proof.
  intros H. unfold top_strings, nlargest.
  assert ((n <=? 0) = true) as -> by (apply Z.leb_le; lia). reflexivity.
Qed.

Lemma top_strings_firstn (df : DataFrame) (n : Z) :
  0 < n ->
  top_strings df n
  = map fst (firstn (Z.to_nat n) (sort_by by_value_desc (groupby_max df))).
Proof.
  intros H. unfold top_strings, nlargest.
  assert ((n <=? 0) = false) as -> by (apply Z.leb_gt; lia). reflexivity.
Qed.

Lemma top_strings_incl (df : DataFrame) (n : Z) :
  incl (top_strings df n) (map str df).
Proof.
  intros k Hk. destruct (Z_le_gt_dec n 0) as [Hn|Hn].
  - rewrite top_strings_nonpositive in Hk by exact Hn. destruct Hk.
  - rewrite top_strings_firstn in Hk by lia.
    rewrite <- firstn_map in Hk. apply firstn_incl in Hk.
    apply group_keys_In. rewrite <- groupby_max_keys.
    eapply Permutation_in; [|exact Hk].
    apply Permutation_map, sort_by_perm.
Qed.

Lemma top_strings_NoDup (df : DataFrame) (n : Z) : NoDup (top_strings df n).
Proof.
  destruct (Z_le_gt_dec n 0) as [Hn|Hn].
  - rewrite top_strings_nonpositive by exact Hn. constructor.
  - rewrite top_strings_firstn by lia.
    rewrite <- firstn_map. apply NoDup_firstn.
    eapply Permutation_NoDup.
    + apply Permutation_sym, Permutation_map, sort_by_perm.
    + rewrite groupby_max_keys. apply group_keys_NoDup.
Qed.

(** X6: a selected string is at least as frequent at its peak as any
    string of the table that was not selected. *)
Theorem top_n_dominates (df : DataFrame) (n : Z) (k k' : string) (m m' : Z) :
  In k (top_strings df n) ->
  In k' (map str df) -> ~ In k' (top_strings df n) ->
  max_freq_of df k = Some m -> max_freq_of df k' = Some m' ->
  m' <= m.
Proof.
  intros Hk Hk' Hout Hm Hm'.
  destruct (Z_le_gt_dec n 0) as [Hn|Hn].
  { rewrite top_strings_nonpositive in Hk by exact Hn. destruct Hk. }
  rewrite top_strings_firstn in Hk, Hout by lia.
  set (S0 := sort_by by_value_desc (groupby_max df)) in *.
  set (c := Z.to_nat n) in *.
  assert (Hperm : Permutation S0 (groupby_max df)) by apply sort_by_perm.
  apply in_map_iff in Hk. destruct Hk as ([k0 v] & E & Hin). simpl in E. subst k0.
  assert (v = m) as ->.
  { assert (In (k, v) (groupby_max df)).
    { eapply Permutation_in; [exact Hperm|]. eapply firstn_incl; exact Hin. }
    apply groupby_max_entry in H. congruence. }
  assert (Hk0 : In k' (map fst S0)).
  { eapply Permutation_in; [apply Permutation_sym, Permutation_map, Hperm|].
    rewrite groupby_max_keys. now apply group_keys_In. }
  apply in_map_iff in Hk0. destruct Hk0 as ([k0 v'] & E & Hin'). simpl in E. subst k0.
  assert (v' = m') as ->.
  { assert (In (k', v') (groupby_max df)).
    { eapply Permutation_in; [exact Hperm|exact Hin']. }
    apply groupby_max_entry in H. congruence. }
  rewrite <- (firstn_skipn c S0) in Hin'. apply in_app_or in Hin'.
  destruct Hin' as [Hin'|Hin'].
  { exfalso. apply Hout. apply in_map_iff. exists (k', m'). now split. }
  assert (Hs : StronglySorted (fun a b => by_value_desc a b = true) S0).
  { apply sort_by_sorted; [exact by_value_total | exact by_value_trans]. }
  rewrite <- (firstn_skipn c S0) in Hs.
  pose proof (StronglySorted_app_inv _ _ _ Hs _ _ Hin Hin') as Hle.
  unfold by_value_desc in Hle. simpl in Hle. now apply Z.leb_le.
Qed.

Lemma top_n_dominates_witness :
  In "1-2"%string (top_strings sample 2) /\
  In "3-4"%string (map str sample) /\ ~ In "3-4"%string (top_strings sample 2) /\
  max_freq_of sample "1-2" = Some 5 /\ max_freq_of sample "3-4" = Some 2 /\
  2 <= 5.
Proof.
  assert (H1 : In "1-2"%string (top_strings sample 2)) by (vm_compute; tauto).
  assert (H2 : In "3-4"%string (map str sample)) by (vm_compute; tauto).
  assert (H3 : ~ In "3-4"%string (top_strings sample 2)).
  { vm_compute. intros [H|[H|[]]]; discriminate H. }
  assert (H4 : max_freq_of sample "1-2" = Some 5) by reflexivity.
  assert (H5 : max_freq_of sample "3-4" = Some 2) by reflexivity.
  repeat (split; [assumption|]).
  exact (top_n_dominates sample 2 "1-2" "3-4" 5 2 H1 H2 H3 H4 H5).
Defined.

Lemma firstn_le_incl {A : Type} (n m : nat) (l : list A) :
  (n <= m)%nat -> incl (firstn n l) (firstn m l).
Proof.
  intros H x Hx.
  replace n with (Nat.min n m) in Hx by lia.
  rewrite <- firstn_firstn in Hx. eapply firstn_incl; exact Hx.
Qed.

(** Asking for more strings never drops one: the selection only grows. *)
Lemma top_strings_mono (df : DataFrame) (n m : Z) :
  n <= m -> incl (top_strings df n) (top_strings df m).
Proof.
  intros Hnm k Hk. destruct (Z_le_gt_dec n 0) as [Hn|Hn].
  { rewrite top_strings_nonpositive in Hk by exact Hn. destruct Hk. }
  rewrite top_strings_firstn in Hk by lia.
  rewrite top_strings_firstn by lia.
  rewrite <- firstn_map in *.
  eapply (firstn_le_incl (Z.to_nat n) (Z.to_nat m)); [lia|exact Hk].
Qed.

(** * Further properties of the pivot matrix *)

Lemma isin_str_In (keys : list string) (df : DataFrame) (s : string) :
  In s (map str (isin keys df)) <-> In s (map str df) /\ In s keys.
Proof.
  rewrite !in_map_iff. split.
  - intros (r & E & Hr). apply filter_In in Hr. destruct Hr as [Hr Hk].
    apply (existsb_eqb _ Seqb_spec) in Hk. subst s.
    split; [exists r; tauto|exact Hk].
  - intros [(r & E & Hr) Hk]. exists r. split; [exact E|].
    apply filter_In. split; [exact Hr|].
    apply (existsb_eqb _ Seqb_spec). now rewrite E.
Qed.

Lemma pivot_rows_perm (d : DataFrame) :
  Permutation
    (pv_rows (sort_rows_by_max (pivot_table d)))
    (map (fun s => (s, map (pivot_cell d s) (iterations d))) (group_keys d)).
Proof. apply sort_by_perm. Qed.

(** X8: the heatmap matrix has exactly one row per selected string, every
    row has one cell per column, and the columns are, in strictly
    increasing order, the iterations at which some selected string was
    logged. *)
Theorem heatmap_pivot_shape (df : DataFrame) (top_n : Z) :
  let pv := heatmap_pivot df top_n in
  Permutation (pv_index pv) (top_strings df top_n) /\
  (forall r, In r (pv_rows pv) -> length (snd r) = length (pv_columns pv)) /\
  (forall it, In it (pv_columns pv) <->
              exists r, In r df /\ iteration r = it /\
                        In (str r) (top_strings df top_n)) /\
  (forall i j a b, (i < j)%nat ->
     nth_error (pv_columns pv) i = Some a ->
     nth_error (pv_columns pv) j = Some b -> a < b).
Proof.
  intros pv. unfold pv, heatmap_pivot.
  set (ts := top_strings df top_n). set (dft := isin ts df).
  split; [|split; [|split]].
  - apply NoDup_Permutation.
    + unfold pv_index.
      eapply Permutation_NoDup;
        [apply Permutation_sym, Permutation_map, pivot_rows_perm|].
      rewrite map_map. simpl. rewrite map_id. apply group_keys_NoDup.
    + apply top_strings_NoDup.
    + intros s. rewrite pivot_index_In. unfold dft. rewrite isin_str_In.
      split; [tauto|]. intros Hs. split; [|exact Hs].
      now apply (top_strings_incl df top_n).
  - intros r Hr.
    apply (Permutation_in _ (pivot_rows_perm dft)) in Hr.
    apply in_map_iff in Hr. destruct Hr as (s & <- & _).
    cbn [snd]. now rewrite length_map.
  - intros it. change (pv_columns (sort_rows_by_max (pivot_table dft)))
      with (iterations dft).
    rewrite iterations_In, in_map_iff. split.
    + intros (r & E & Hr). apply filter_In in Hr. destruct Hr as [Hr Hk].
      apply (existsb_eqb _ Seqb_spec) in Hk. exists r. tauto.
    + intros (r & Hr & E & Hk). exists r. split; [exact E|].
      apply filter_In. split; [exact Hr|].
      now apply (existsb_eqb _ Seqb_spec).
  - change (pv_columns (sort_rows_by_max (pivot_table dft)))
      with (iterations dft).
    apply iterations_increasing.
Qed.

Lemma q_max_spec (a b : Q) :
  (a <= q_max a b)%Q /\ (b <= q_max a b)%Q /\ (q_max a b = a \/ q_max a b = b).
Proof.
  unfold q_max. destruct (Qle_bool a b) eqn:E.
  - apply Qle_bool_iff in E. repeat split; [exact E|apply Qle_refl|now right].
  - assert (~ (a <= b)%Q) as Hn by (rewrite <- Qle_bool_iff; congruence).
    apply Qnot_le_lt, Qlt_le_weak in Hn.
    repeat split; [apply Qle_refl|exact Hn|now left].
Qed.

Lemma fold_q_max_spec (t : list Q) (x : Q) :
  In (fold_left q_max t x) (x :: t) /\
  forall y, In y (x :: t) -> (y <= fold_left q_max t x)%Q.
Proof.
  revert x. induction t as [|a t IH]; intros x; simpl.
  - split; [now left|]. intros y [->|[]]. apply Qle_refl.
  - destruct (IH (q_max x a)) as [Hin Hle].
    destruct (q_max_spec x a) as (Hx & Ha & Hor). split.
    + destruct Hin as [E|Hin]; [|now right; right].
      rewrite <- E. destruct Hor as [->| ->]; tauto.
    + intros y Hy.
      assert (Hm : (q_max x a <= fold_left q_max t (q_max x a))%Q)
        by (apply Hle; now left).
      destruct Hy as [->|[->|Hy]].
      * eapply Qle_trans; eassumption.
      * eapply Qle_trans; eassumption.
      * apply Hle. now right.
Qed.

Lemma row_max_spec (cells : list Q) (x : Q) :
  row_max cells = Some x -> In x cells /\ forall c, In c cells -> (c <= x)%Q.
Proof.
  destruct cells as [|a t]; simpl; [discriminate|].
  intros [= <-]. apply fold_q_max_spec.
Qed.

Lemma by_row_max_total (a b : string * list Q) :
  by_row_max_desc a b = false -> by_row_max_desc b a = true.
Proof.
  unfold by_row_max_desc.
  destruct (row_max (snd a)) as [x|], (row_max (snd b)) as [y|];
    try discriminate; try reflexivity.
  intros E. apply Qle_bool_iff.
  assert (~ (y <= x)%Q) as Hn by (rewrite <- Qle_bool_iff; congruence).
  apply Qlt_le_weak, Qnot_le_lt, Hn.
Qed.

Lemma by_row_max_trans (a b c : string * list Q) :
  by_row_max_desc a b = true -> by_row_max_desc b c = true ->
  by_row_max_desc a c = true.
Proof.
  unfold by_row_max_desc.
  destruct (row_max (snd a)) as [x|], (row_max (snd b)) as [y|],
           (row_max (snd c)) as [z|];
    try discriminate; try reflexivity.
  rewrite !Qle_bool_iff. intros H1 H2. eapply Qle_trans; eassumption.
Qed.

(** X9: the rows of the heatmap matrix are ordered by descending maximum:
    the largest cell of a row is at least the largest cell of any row below
    it. *)
Theorem heatmap_rows_by_max (df : DataFrame) (top_n : Z) :
  forall i j a b x y, (i < j)%nat ->
    nth_error (pv_rows (heatmap_pivot df top_n)) i = Some a ->
    nth_error (pv_rows (heatmap_pivot df top_n)) j = Some b ->
    row_max (snd a) = Some x -> row_max (snd b) = Some y ->
    In x (snd a) /\ (forall c, In c (snd a) -> (c <= x)%Q) /\
    In y (snd b) /\ (y <= x)%Q.
Proof.
  intros i j a b x y Hij Ha Hb Hx Hy.
  destruct (row_max_spec _ _ Hx) as [Hxin Hxle].
  destruct (row_max_spec _ _ Hy) as [Hyin _].
  repeat split; try assumption.
  assert (Hs : StronglySorted (fun a b => by_row_max_desc a b = true)
                 (pv_rows (heatmap_pivot df top_n))).
  { apply sort_by_sorted; [exact by_row_max_total | exact by_row_max_trans]. }
  pose proof (StronglySorted_nth _ _ Hs i j a b Hij Ha Hb) as Hle.
  unfold by_row_max_desc in Hle. rewrite Hx, Hy in Hle.
  now apply Qle_bool_iff.
Qed.

Lemma heatmap_rows_by_max_witness :
  (0 < 1)%nat /\
  nth_error (pv_rows (heatmap_pivot sample 30)) 0
  = Some ("1-2"%string, [inject_Z 4 / inject_Z 1; inject_Z 5 / inject_Z 1]%Q) /\
  nth_error (pv_rows (heatmap_pivot sample 30)) 1
  = Some ("2-3"%string, [0; inject_Z 3 / inject_Z 1]%Q) /\
  (inject_Z 3 / inject_Z 1 <= inject_Z 5 / inject_Z 1)%Q.
Proof.
  assert (H0 : (0 < 1)%nat) by lia.
  assert (Ha : nth_error (pv_rows (heatmap_pivot sample 30)) 0
               = Some ("1-2"%string,
                       [inject_Z 4 / inject_Z 1; inject_Z 5 / inject_Z 1]%Q))
    by reflexivity.
  assert (Hb : nth_error (pv_rows (heatmap_pivot sample 30)) 1
               = Some ("2-3"%string, [0; inject_Z 3 / inject_Z 1]%Q))
    by reflexivity.
  split; [exact H0|]. split; [exact Ha|]. split; [exact Hb|].
  exact (proj2 (proj2 (proj2
    (heatmap_rows_by_max sample 30 0 1 _ _ _ _ H0 Ha Hb eq_refl eq_refl)))).
Defined.

(** * Further properties of the rank-evolution lines *)

Lemma rows_of_isin (keys : list string) (df : DataFrame) (s : string) :
  In s keys -> rows_of s (isin keys df) = rows_of s df.
Proof.
  intros Hs. apply filter_absorb. intros r Hr.
  apply String.eqb_eq in Hr. apply (existsb_eqb _ Seqb_spec). now rewrite Hr.
Qed.

Lemma by_iteration_total (a b : Row) :
  by_iteration_asc a b = false -> by_iteration_asc b a = true.
Proof. apply Zleb_total. Qed.

Lemma by_iteration_trans (a b c : Row) :
  by_iteration_asc a b = true -> by_iteration_asc b c = true ->
  by_iteration_asc a c = true.
Proof. apply Zleb_trans. Qed.

(** X10: the rank-evolution plot has one line per selected string, in
    selection order; the points of a line are the (iteration, rank) pairs of
    all the rows of that string in the table, in order of iteration. *)
Theorem rank_lines_points (df : DataFrame) (top_n : Z) :
  map fst (rank_lines df top_n) = top_strings df top_n /\
  forall s pts, In (s, pts) (rank_lines df top_n) ->
    Permutation pts (map (fun r => (iteration r, rank r)) (rows_of s df)) /\
    forall i j p q, (i < j)%nat ->
      nth_error pts i = Some p -> nth_error pts j = Some q -> fst p <= fst q.
Proof.
  unfold rank_lines. set (ts := top_strings df top_n). split.
  - rewrite map_map. simpl. apply map_id.
  - intros s pts Hin. apply in_map_iff in Hin.
    destruct Hin as (s' & E & Hs). unfold rank_line in E.
    injection E as -> <-. rewrite (rows_of_isin ts df s Hs). split.
    + apply Permutation_map, sort_by_perm.
    + intros i j p q Hij Hp Hq.
      rewrite nth_error_map in Hp, Hq.
      destruct (nth_error (sort_by by_iteration_asc (rows_of s df)) i)
        as [a|] eqn:Ea; [|discriminate].
      destruct (nth_error (sort_by by_iteration_asc (rows_of s df)) j)
        as [b|] eqn:Eb; [|discriminate].
      injection Hp as <-. injection Hq as <-. simpl.
      apply Z.leb_le.
      apply (StronglySorted_nth (fun a b => by_iteration_asc a b = true) _
               (sort_by_sorted by_iteration_asc by_iteration_total
                  by_iteration_trans (rows_of s df))
               i j a b Hij Ea Eb).
Qed.

(** * Further properties of the summary *)

Lemma col_sum_cons (x : Z) (t : list Z) : col_sum (x :: t) = x + col_sum t.
Proof. unfold col_sum at 1. cbn [fold_left]. apply fold_add_shift. Qed.

Lemma col_sum_perm (l l' : list Z) : Permutation l l' -> col_sum l = col_sum l'.
Proof.
  induction 1 as [|x l l' H IH|x y l|l l' l'' H1 IH1 H2 IH2].
  - reflexivity.
  - rewrite !col_sum_cons. lia.
  - rewrite !col_sum_cons. lia.
  - congruence.
Qed.

Lemma col_sum_nonneg (l : list Z) :
  (forall x, In x l -> 0 <= x) -> 0 <= col_sum l.
Proof.
  induction l as [|x t IH]; intros H; [reflexivity|].
  rewrite col_sum_cons.
  assert (0 <= x) by (apply H; now left).
  assert (0 <= col_sum t) by (apply IH; intros y Hy; apply H; now right).
  lia.
Qed.

Lemma col_sum_firstn_le (n : nat) (l : list Z) :
  (forall x, In x l -> 0 <= x) -> col_sum (firstn n l) <= col_sum l.
Proof.
  revert n. induction l as [|x t IH]; intros n H.
  - rewrite firstn_nil. lia.
  - destruct n as [|n]; cbn [firstn].
    + apply col_sum_nonneg, H.
    + rewrite !col_sum_cons.
      assert (col_sum (firstn n t) <= col_sum t)
        by (apply IH; intros y Hy; apply H; now right).
      lia.
Qed.

(** With a positive total, each percentage is frequency / total * 100. *)
Lemma pct_positive_total (df : DataFrame) (r : Row) :
  0 < total_freq df ->
  pct df r = Some (inject_Z (frequency r) / inject_Z (total_freq df) * 100)%Q.
Proof.
  intros H. unfold pct, true_div.
  assert ((total_freq df >? 0) = true) as -> by (apply Z.gtb_lt; lia).
  assert ((total_freq df =? 0) = false) as -> by (apply Z.eqb_neq; lia).
  reflexivity.
Qed.

Lemma pct_column_total (df : DataFrame) (rows : list Row) (pcts : list Q) :
  0 < total_freq df ->
  Forall2 (fun r q => pct df r = Some q) rows pcts ->
  (q_sum pcts
   == inject_Z (col_sum (map frequency rows)) / inject_Z (total_freq df) * 100)%Q.
Proof.
  intros HT. induction 1 as [|r q rows pcts Hq Hrest IH].
  - simpl. unfold col_sum. simpl. field.
    unfold Qeq. simpl. lia.
  - cbn [q_sum fold_right map]. fold (q_sum pcts).
    rewrite IH, col_sum_cons, inject_Z_plus.
    rewrite (pct_positive_total df r HT) in Hq. injection Hq as <-.
    field. unfold Qeq. simpl. lia.
Qed.

Lemma share_le_100 (s T : Z) :
  0 < T -> s <= T -> (inject_Z s / inject_Z T * 100 <= 100)%Q.
Proof.
  intros HT Hs. destruct T as [|p|p]; try lia.
  unfold Qle, Qdiv, Qmult, Qinv, inject_Z. simpl. lia.
Qed.

Lemma share_all_100 (T : Z) :
  0 < T -> (inject_Z T / inject_Z T * 100 == 100)%Q.
Proof.
  intros HT. field. unfold Qeq. simpl. lia.
Qed.

(** X11: when all frequencies of the final iteration are non-negative and
    their sum is positive, the percentages of the top-20 table add up to at
    most 100, and to exactly 100 when the final iteration has at most 20
    rows. *)
Theorem pct_column_sum (df : DataFrame) (pcts : list Q) :
  0 < col_sum (map frequency (final_data df)) ->
  (forall r, In r (final_data df) -> 0 <= frequency r) ->
  Forall2 (fun r q => pct df r = Some q) (top20 df) pcts ->
  (q_sum pcts <= 100)%Q /\
  ((length (final_data df) <= 20)%nat -> (q_sum pcts == 100)%Q).
Proof.
  intros Hpos Hnn Hp.
  assert (Hne : final_data df <> []).
  { intros E. rewrite E in Hpos. vm_compute in Hpos. discriminate. }
  pose proof (total_freq_final df Hne) as Ht.
  assert (HT : 0 < total_freq df) by lia.
  pose proof (pct_column_total df (top20 df) pcts HT Hp) as Hsum.
  rewrite Ht in Hsum.
  set (sorted := sort_by by_rank_asc (final_data df)).
  assert (Htop : top20 df = firstn 20 sorted) by reflexivity.
  assert (Hall : col_sum (map frequency sorted)
                 = col_sum (map frequency (final_data df))).
  { apply col_sum_perm, Permutation_map, sort_by_perm. }
  split.
  - rewrite Hsum. apply share_le_100; [exact Hpos|].
    rewrite Htop, <- Hall, <- firstn_map. apply col_sum_firstn_le.
    intros x Hx. apply in_map_iff in Hx. destruct Hx as (r & <- & Hr).
    apply Hnn. unfold sorted in Hr. now apply sort_by_In in Hr.
  - intros Hlen. rewrite Hsum, Htop.
    rewrite firstn_all2 by (unfold sorted; rewrite sort_by_length; exact Hlen).
    rewrite Hall. apply share_all_100, Hpos.
Qed.

Lemma pct_column_sum_witness :
  0 < col_sum (map frequency (final_data sample)) /\
  (forall r, In r (final_data sample) -> 0 <= frequency r) /\
  (q_sum [inject_Z 5 / inject_Z 10 * 100; inject_Z 3 / inject_Z 10 * 100;
          inject_Z 2 / inject_Z 10 * 100] <= 100)%Q.
Proof.
  assert (H1 : 0 < col_sum (map frequency (final_data sample))) by reflexivity.
  assert (H2 : forall r, In r (final_data sample) -> 0 <= frequency r).
  { intros r Hr. vm_compute in Hr.
    destruct Hr as [<-|[<-|[<-|[]]]]; simpl; lia. }
  split; [exact H1|]. split; [exact H2|].
  refine (proj1 (pct_column_sum sample _ H1 H2 _)).
  repeat constructor.
Defined.

Lemma final_data_rows (df : DataFrame) (r : Row) :
  In r (final_data df) <->
  In r df /\ final_iter df = Some (iteration r).
Proof.
  unfold final_data. destruct (final_iter df) as [m|].
  - unfold rows_at. rewrite filter_In, Z.eqb_eq. split.
    + intros [H ->]. now split.
    + intros [H [= ->]]. now split.
  - split; [intros []|intros [_ H]; discriminate].
Qed.

Lemma persistent_keys_NoDup (df : DataFrame) :
  NoDup (map fst (persistent_strings df)).
Proof.
  rewrite persistent_strings_keys. apply NoDup_filter, group_keys_NoDup.
Qed.

(** With every pair logged once, each persistent string has exactly one
    row in the final iteration. *)
Lemma persistent_rows_of_final (df : DataFrame) :
  NoDup (pairs df) ->
  length (isin (map fst (persistent_strings df)) (final_data df))
  = length (persistent_strings df).
Proof.
  intros Hnd. set (P := map fst (persistent_strings df)).
  set (X := isin P (final_data df)).
  rewrite <- (length_map fst (persistent_strings df)). fold P.
  rewrite <- (length_map str X).
  assert (HX : forall r, In r X ->
             In r df /\ final_iter df = Some (iteration r) /\ In (str r) P).
  { intros r Hr. apply filter_In in Hr. destruct Hr as [Hr Hk].
    apply final_data_rows in Hr. apply (existsb_eqb _ Seqb_spec) in Hk. tauto. }
  assert (Hnx : NoDup (map str X)).
  { destruct (final_iter df) as [m|] eqn:Em.
    - apply (NoDup_map_inv (fun s => (s, m))). rewrite map_map.
      assert (Hp : NoDup (map (fun r => (str r, iteration r)) X)).
      { unfold X, isin, final_data. rewrite Em. unfold rows_at.
        apply NoDup_map_filter, NoDup_map_filter. exact Hnd. }
      erewrite map_ext_in; [exact Hp|].
      intros r Hr. destruct (HX r Hr) as (_ & E & _). congruence.
    - destruct X as [|r t]; [constructor|].
      destruct (HX r) as (_ & E & _); [now left|discriminate]. }
  apply Nat.le_antisymm.
  - apply NoDup_incl_length; [exact Hnx|].
    intros s Hs. apply in_map_iff in Hs. destruct Hs as (r & <- & Hr).
    now apply HX.
  - apply NoDup_incl_length; [apply persistent_keys_NoDup|].
    intros k Hk. pose proof Hk as Hk0.
    unfold P in Hk. rewrite persistent_strings_keys in Hk.
    apply filter_In in Hk. destruct Hk as [Hkey Hcount].
    rewrite (row_count_decides_presence df k Hnd) in Hcount.
    apply group_keys_In in Hkey.
    destruct (col_max_some (map iteration df)) as [m Hm].
    { destruct df; [destruct Hkey|discriminate]. }
    unfold appears_everywhere in Hcount. rewrite forallb_forall in Hcount.
    assert (Hmin : In m (unique Z.eqb (map iteration df))).
    { apply (unique_In _ Zeqb_spec). apply col_max_spec in Hm. tauto. }
    apply Hcount, appears_at_iff, in_map_iff in Hmin.
    destruct Hmin as (r & Er & Hr). apply filter_In in Hr.
    destruct Hr as [Hr Es]. apply String.eqb_eq in Es.
    apply in_map_iff. exists r. split; [exact Es|].
    apply filter_In. split.
    + apply final_data_rows. split; [exact Hr|].
      unfold final_iter. now rewrite Hm, Er.
    + apply (existsb_eqb _ Seqb_spec). now rewrite Es.
Qed.

(** X12: the persistent strings listed in the summary are at most 10 rows
    of the final iteration, each of a persistent string, in order of rank;
    on a table that logs no pair twice there are min(10, persistence count)
    of them. *)
Theorem persistent_top10 (df : DataFrame) :
  (length (persistent_final df) <= 10)%nat /\
  (forall r, In r (persistent_final df) ->
     In r (final_data df) /\ In (str r) (map fst (persistent_strings df))) /\
  (forall i j a b, (i < j)%nat ->
     nth_error (persistent_final df) i = Some a ->
     nth_error (persistent_final df) j = Some b -> rank a <= rank b) /\
  (NoDup (pairs df) ->
   length (persistent_final df) = Nat.min 10 (length (persistent_strings df))).
Proof.
  unfold persistent_final. split; [|split; [|split]].
  - rewrite (nsmallest_rank_length 10). lia.
  - intros r Hr. apply nsmallest_rank_incl in Hr.
    apply filter_In in Hr. destruct Hr as [Hr Hk].
    split; [exact Hr|]. now apply (existsb_eqb _ Seqb_spec) in Hk.
  - intros i j a b Hij Ha Hb. apply Z.leb_le.
    exact (StronglySorted_nth _ _ (nsmallest_rank_sorted 10 _) i j a b Hij Ha Hb).
  - intros Hnd. rewrite (nsmallest_rank_length 10).
    now rewrite persistent_rows_of_final.
Qed.

Lemma persistent_top10_witness :
  NoDup (pairs sample) /\
  length (persistent_final sample) = Nat.min 10 (length (persistent_strings sample)).
Proof.
  assert (H : NoDup (pairs sample)).
  { repeat constructor; simpl; intuition discriminate. }
  split; [exact H|].
  exact (proj2 (proj2 (proj2 (persistent_top10 sample))) H).
Defined.

Lemma main_completes_witness :
  (2 <= length argv_log)%nat /\
  path_exists (world_with sample) (nth 1 argv_log EmptyString) = true /\
  read_csv (world_with sample) (nth 1 argv_log EmptyString) = inr sample /\
  sample <> [] /\
  fst (main (world_with sample) argv_log init) = Ok tt.
Proof.
  assert (H1 : (2 <= length argv_log)%nat) by (simpl; lia).
  assert (H2 : path_exists (world_with sample) (nth 1 argv_log EmptyString) = true)
    by reflexivity.
  assert (H3 : read_csv (world_with sample) (nth 1 argv_log EmptyString) = inr sample)
    by reflexivity.
  assert (H4 : sample <> []) by discriminate.
  repeat (split; [assumption|]).
  exact (proj1 (main_completes (world_with sample) argv_log sample H1 H2 H3 H4
                  (fun _ _ => eq_refl))).
Defined.

(** * The loader *)




(** * Failures during a run *)

(** X15: when the file exists and the reader raises, the run ends in that
    exception, exit status 1, and no output file is written. *)
Theorem main_reader_error (w : World) (argv : list string) (e : exn) :
  (2 <= length argv)%nat ->
  path_exists w (nth 1 argv EmptyString) = true ->
  read_csv w (nth 1 argv EmptyString) = inl e ->
  fst (main w argv init) = Raise e /\
  exit_code (fst (main w argv init)) = 1 /\
  files (snd (main w argv init)) = [].
Proof.
  intros Hlen Hex Hread.
  rewrite (main_with_file w argv Hlen Hex). cbv zeta.
  rewrite run_print. unfold bind at 1. unfold load_data.
  rewrite run_print, Hread. repeat split.
Qed.

Lemma main_reader_error_witness :
  (2 <= length argv_log)%nat /\
  path_exists world_unreadable (nth 1 argv_log EmptyString) = true /\
  read_csv world_unreadable (nth 1 argv_log EmptyString) = inl ParserError /\
  fst (main world_unreadable argv_log init) = Raise ParserError.
Proof.
  assert (H1 : (2 <= length argv_log)%nat) by (simpl; lia).
  assert (H2 : path_exists world_unreadable (nth 1 argv_log EmptyString) = true)
    by reflexivity.
  assert (H3 : read_csv world_unreadable (nth 1 argv_log EmptyString)
               = inl ParserError) by reflexivity.
  repeat (split; [assumption|]).
  exact (proj1 (main_reader_error world_unreadable argv_log ParserError H1 H2 H3)).
Defined.

(** X16: a generator that fails stops the run and nothing is cleaned up:
    when the heatmap can be written and writing the histogram fails, the
    run ends in that exception with the heatmap as its only output; the
    rank-evolution plot and the summary are not produced. *)
Theorem main_stops_at_failure (w : World) (argv : list string) (d : DataFrame)
        (e : exn) :
  let csv_file := nth 1 argv EmptyString in
  let dir := output_dir_of csv_file in
  (2 <= length argv)%nat ->
  path_exists w csv_file = true ->
  read_csv w csv_file = inr d ->
  d <> [] ->
  (forall a, write_error w (output_file (Heatmap 30) dir) a = None) ->
  (forall a, write_error w (output_file Histogram dir) a = Some e) ->
  fst (main w argv init) = Raise e /\
  map fst (files (snd (main w argv init))) = [output_file (Heatmap 30) dir].
Proof.
  intros csv_file dir Hlen Hex Hread Hne Hheat Hhist.
  rewrite (main_with_file w argv Hlen Hex). fold csv_file. cbv zeta. fold dir.
  match goal with
  | |- fst ?run = _ /\ _ =>
      assert (Hrun : exists s, run = (Raise e, s) /\
                               map fst (files s) = [output_file (Heatmap 30) dir])
  end.
  { rewrite run_print.
    assert (Hload : exists s1,
               load_data w csv_file
                 (mkState (heap init)
                    (stdout init ++ [Text "STRING FREQUENCY VISUALIZATION"])
                    (files init)) = (Ok 0%nat, s1) /\
               nth_error (heap s1) 0 = Some d /\ files s1 = []).
    { unfold load_data. rewrite Hread. eexists. split; [reflexivity|].
      split; reflexivity. }
    destruct Hload as (s1 & Eload & Hd1 & Hf1).
    unfold bind at 1. rewrite Eload.
    destruct (create_heatmap_run w 0%nat dir 30 s1 d Hd1) as (sa & Hfa & Ea).
    pose proof (proj1 (tame_create_heatmap w 0%nat dir 30 s1)) as Hext.
    cbv zeta in Ea.
    change (path_join dir "heatmap_top_strings.png")
      with (output_file (Heatmap 30) dir) in Ea.
    rewrite Hheat in Ea. rewrite Ea in Hext. cbn [snd heap] in Hext.
    unfold bind at 1. rewrite Ea. cbv beta iota.
    match goal with
    | |- context [bind (create_histogram w 0%nat dir) _ ?s2] =>
        destruct (create_histogram_run w 0%nat dir s2 d Hne)
          as (rows & panels & sb & _ & _ & Hfb & Eb);
        [ exact (heap_extends_lookup _ _ _ _ Hext Hd1) | ]
    end.
    cbv zeta in Eb.
    change (path_join dir "histogram_frequency_distribution.png")
      with (output_file Histogram dir) in Eb.
    rewrite Hhist in Eb.
    unfold bind at 1. rewrite Eb.
    exists sb. split; [reflexivity|].
    cbn [files] in Hfb. rewrite Hfb, map_app, Hfa, Hf1. reflexivity. }
  destruct Hrun as (s & -> & Hfiles). split; [reflexivity|exact Hfiles].
Qed.

Lemma main_stops_at_failure_witness :
  (2 <= length argv_log)%nat /\
  sample <> [] /\
  fst (main (world_histogram_fails sample) argv_log init) = Raise IOError /\
  map fst (files (snd (main (world_histogram_fails sample) argv_log init)))
  = ["logs/heatmap_top_strings.png"%string].
Proof.
  assert (H1 : (2 <= length argv_log)%nat) by (simpl; lia).
  assert (H2 : sample <> []) by discriminate.
  split; [exact H1|]. split; [exact H2|].
  exact (main_stops_at_failure (world_histogram_fails sample) argv_log sample
           IOError H1 eq_refl eq_refl H2 (fun _ => eq_refl) (fun _ => eq_refl)).
Defined.

(** * Where the outputs go *)

Lemma upto_last_slash_none (p : string) :
  contains_slash p = false -> upto_last_slash p = None.
Proof.
  induction p as [|c t IH]; simpl; [reflexivity|].
  intros H. apply orb_false_iff in H. destruct H as [Hc Ht].
  now rewrite (IH Ht), Hc.
Qed.

Lemma upto_last_slash_app (dir name : string) :
  contains_slash name = false ->
  upto_last_slash (dir ++ "/" ++ name) = Some (dir ++ "/")%string.
Proof.
  intros Hn. induction dir as [|c t IH]; simpl.
  - now rewrite (upto_last_slash_none name Hn).
  - simpl in IH. now rewrite IH.
Qed.

Lemma rstrip_added_slash (dir : string) :
  dir <> EmptyString -> ends_with_slash dir = false ->
  rstrip_slash (dir ++ "/") = dir /\ all_slashes (dir ++ "/") = false.
Proof.
  induction dir as [|c t IH]; [congruence|]. intros _ He.
  destruct t as [|c2 t2].
  - simpl in *. rewrite He. split; reflexivity.
  - destruct IH as [IHr IHa]; [discriminate|exact He|].
    split.
    + change (rstrip_slash (String c (String c2 t2 ++ "/")) = String c (String c2 t2)).
      cbn [rstrip_slash]. rewrite IHr. reflexivity.
    + change (all_slashes (String c (String c2 t2 ++ "/")) = false).
      cbn [all_slashes]. rewrite IHa. apply andb_false_r.
Qed.

Lemma path_join_plain (dir name : string) :
  dir <> EmptyString -> ends_with_slash dir = false ->
  path_join dir name = (dir ++ "/" ++ name)%string.
Proof.
  intros Hd He. unfold path_join. destruct dir; [congruence|].
  now rewrite He.
Qed.

(** X17: the outputs go beside the input: for an input path dir/name they
    are written to dir/<output name>, and for a bare file name to
    ./<output name>; the output directory is never the empty string. *)
Theorem outputs_beside_input :
  (forall dir name g,
     dir <> EmptyString -> ends_with_slash dir = false ->
     contains_slash name = false ->
     output_dir_of (dir ++ "/" ++ name) = dir /\
     output_file g (output_dir_of (dir ++ "/" ++ name))
     = (dir ++ "/" ++ output_file g "")%string) /\
  (forall name g,
     contains_slash name = false ->
     output_dir_of name = "."%string /\
     output_file g (output_dir_of name) = ("./" ++ output_file g "")%string) /\
  (forall p, output_dir_of p <> EmptyString).
Proof.
  split; [|split].
  - intros dir name g Hd He Hn.
    assert (Hdir : output_dir_of (dir ++ "/" ++ name) = dir).
    { unfold output_dir_of, dirname.
      rewrite (upto_last_slash_app dir name Hn).
      destruct (rstrip_added_slash dir Hd He) as [-> ->].
      destruct dir; [congruence|reflexivity]. }
    split; [exact Hdir|]. rewrite Hdir. unfold output_file.
    now rewrite path_join_plain.
  - intros name g Hn.
    assert (Hdir : output_dir_of name = "."%string).
    { unfold output_dir_of, dirname. now rewrite (upto_last_slash_none name Hn). }
    split; [exact Hdir|]. rewrite Hdir. destruct g; reflexivity.
  - intros p. unfold output_dir_of. destruct (dirname p); discriminate.
Qed.

Lemma outputs_beside_input_witness :
  ("logs"%string <> EmptyString) /\
  ends_with_slash "logs" = false /\
  contains_slash "freq.csv" = false /\
  output_file SummaryStats (output_dir_of "logs/freq.csv")
  = "logs/summary_stats.txt"%string.
Proof.
  assert (H1 : "logs"%string <> EmptyString) by discriminate.
  assert (H2 : ends_with_slash "logs" = false) by reflexivity.
  assert (H3 : contains_slash "freq.csv" = false) by reflexivity.
  repeat (split; [assumption|]).
  exact (proj2 (proj1 outputs_beside_input "logs"%string "freq.csv"%string
                  SummaryStats H1 H2 H3)).
Defined.

(** * The two selections of a run *)

(** X7: every string that gets a line in the rank-evolution plot (top n)
    has a row in the heatmap (top m) whenever n <= m, as with the 15 and
    30 of [main]; this does not depend on how equal maxima are ordered. *)
Theorem rank_lines_in_heatmap (df : DataFrame) (n m : Z) :
  n <= m ->
  forall s, In s (map fst (rank_lines df n)) ->
            In s (pv_index (heatmap_pivot df m)) /\ In s (map str df).
Proof.
  intros Hnm s Hs.
  assert (Hn : In s (top_strings df n)).
  { unfold rank_lines in Hs. rewrite map_map in Hs. simpl in Hs.
    now rewrite map_id in Hs. }
  pose proof (top_strings_incl df n s Hn) as Hdf.
  split; [|exact Hdf].
  unfold heatmap_pivot. apply pivot_index_In, isin_str_In.
  split; [exact Hdf|]. now apply (top_strings_mono df n m Hnm).
Qed.

Lemma rank_lines_in_heatmap_witness :
  15 <= 30 /\
  In "2-3"%string (map fst (rank_lines sample 15)) /\
  In "2-3"%string (pv_index (heatmap_pivot sample 30)).
Proof.
  assert (H : 15 <= 30) by lia.
  assert (Hs : In "2-3"%string (map fst (rank_lines sample 15)))
    by (vm_compute; tauto).
  split; [exact H|]. split; [exact Hs|].
  exact (proj1 (rank_lines_in_heatmap sample 15 30 H "2-3"%string Hs)).
Defined.

(** * A file with a header and no rows *)

Lemma create_histogram_no_rows (w : World) (df : ref) (dir : string) (st : State) :
  nth_error (heap st) df = Some [] ->
  fst (create_histogram w df dir st) = Raise ZeroDivisionError.
Proof.
  intros Hd. unfold create_histogram.
  rewrite run_print. rewrite (run_deref df []) by exact Hd. reflexivity.
Qed.

(** Whatever happens when the heatmap of an empty table is rendered, a run
    on a table without rows never completes: if the heatmap gets written,
    the histogram grid divides by zero. *)
Lemma header_only_run_fails (w : World) (argv : list string) :
  (2 <= length argv)%nat ->
  path_exists w (nth 1 argv EmptyString) = true ->
  read_csv w (nth 1 argv EmptyString) = inr [] ->
  exists e, fst (main w argv init) = Raise e /\
            exit_code (fst (main w argv init)) = 1.
Proof.
  intros Hlen Hex Hread.
  enough (Hraise : exists e, fst (main w argv init) = Raise e).
  { destruct Hraise as [e He]. exists e. split; [exact He|].
    rewrite He. reflexivity. }
  rewrite (main_outcome w argv Hlen Hex).
  set (csv_file := nth 1 argv EmptyString) in *.
  set (dir := output_dir_of csv_file).
  assert (Hload : exists s1,
             load_data w csv_file banner_state = (Ok 0%nat, s1) /\
             nth_error (heap s1) 0 = Some []).
  { unfold load_data. rewrite Hread. eexists. split; reflexivity. }
  destruct Hload as (s1 & -> & Hd1).
  destruct (after_load_outcome w 0%nat dir s1) as [-> _].
  unfold run_all, generators, run_generator.
  destruct (create_heatmap_run w 0%nat dir 30 s1 [] Hd1) as (sa & _ & Ea).
  pose proof (proj1 (tame_create_heatmap w 0%nat dir 30 s1)) as Hext.
  cbv zeta in Ea. unfold bind at 1. rewrite Ea in Hext |- *.
  destruct (write_error w _ _) as [e|].
  - exists e. reflexivity.
  - cbn [snd heap] in Hext. cbv beta iota.
    match goal with
    | |- context [bind (create_histogram w 0%nat dir) _ ?s2] =>
        pose proof (create_histogram_no_rows w 0%nat dir s2
                      (heap_extends_lookup _ _ _ _ Hext Hd1)) as Hh;
        unfold bind at 1;
        destruct (create_histogram w 0%nat dir s2) as [o sb]
    end.
    cbn [fst] in Hh. subst o. exists ZeroDivisionError. reflexivity.
Qed.
